(** * pocketllm: the Ollama-compatible bridges over llama.cpp

    A shallow embedding of [scripts/ollama-gpu-bridge.py] (persistent
    sessions) and [scripts/ollama-gpu-bridge-v2.py] (one-shot runs):
    the model registry ([scan_models], [get_model_path]), the session
    directory ([get_or_create_session]), the completion-detection loop of
    [LlamaCppSession.generate], the one-shot runner
    ([run_llama_generation]) and the [pull_model] route.

    Modelling conventions.
    - Python [str] is [string]; case mapping and whitespace are those of
      the ASCII range.
    - A Python [dict] is an association list in insertion order with
      unique keys: assignment to a present key keeps its position.
    - Globals ([MODEL_REGISTRY], [ACTIVE_SESSIONS]) and the file system are
      fields of an explicit [server] state threaded through every call.
    - [time.time() - start_time] is read in whole milliseconds. *)

From Stdlib Require Import String Ascii List Bool Arith ZArith Lia.
From Stdlib Require Import Numbers.DecimalString.
Import ListNotations.
Open Scope list_scope.
Open Scope string_scope.

(** ** Python string operations *)

Module Str.

Definition is_upper (c : ascii) : bool :=
  let n := nat_of_ascii c in ((65 <=? n) && (n <=? 90))%nat.

Definition lower_ascii (c : ascii) : ascii :=
  if is_upper c then ascii_of_nat (nat_of_ascii c + 32) else c.

(** [s.lower()] *)
Fixpoint lower (s : string) : string :=
  match s with
  | EmptyString => EmptyString
  | String c s' => String (lower_ascii c) (lower s')
  end.

(** [s.replace(old, new)] for one-character [old] and [new], the only
    shape the bridges use. *)
Fixpoint replace (old new : ascii) (s : string) : string :=
  match s with
  | EmptyString => EmptyString
  | String c s' =>
      String (if Ascii.eqb c old then new else c) (replace old new s')
  end.

(** [s.startswith(p)] *)
Definition startswith (p s : string) : bool := String.prefix p s.

(** [sub in s] *)
Fixpoint contains (sub s : string) : bool :=
  startswith sub s ||
  match s with
  | EmptyString => false
  | String _ s' => contains sub s'
  end.

(** [s.endswith(suf)] *)
Fixpoint endswith (suf s : string) : bool :=
  String.eqb s suf ||
  match s with
  | EmptyString => false
  | String _ s' => endswith suf s'
  end.

(** [c.isspace()] on the ASCII range: TAB, LF, VT, FF, CR, FS, GS, RS, US
    and the space. *)
Definition isspace (c : ascii) : bool :=
  let n := nat_of_ascii c in
  (((9 <=? n) && (n <=? 13)) || ((28 <=? n) && (n <=? 32)))%nat.

(** [s.rstrip()] *)
Fixpoint rstrip (s : string) : string :=
  match s with
  | EmptyString => EmptyString
  | String c s' =>
      match rstrip s' with
      | EmptyString => if isspace c then EmptyString else String c EmptyString
      | r => String c r
      end
  end.

(** [s.lstrip()] *)
Fixpoint lstrip (s : string) : string :=
  match s with
  | EmptyString => EmptyString
  | String c s' => if isspace c then lstrip s' else s
  end.

(** [s.strip()] *)
Definition strip (s : string) : string := rstrip (lstrip s).

(** [s.split(sep)] for a one-character separator. *)
Fixpoint split (sep : ascii) (s : string) : list string :=
  match s with
  | EmptyString => [EmptyString]
  | String c s' =>
      if Ascii.eqb c sep then EmptyString :: split sep s'
      else match split sep s' with
           | [] => [String c EmptyString]
           | w :: ws => String c w :: ws
           end
  end.

(** [sep.join(parts)] *)
Definition join (sep : string) (parts : list string) : string :=
  String.concat sep parts.

(** [s.rfind(c)]: the index of the last occurrence, [None] for -1. *)
Fixpoint rfind (c : ascii) (s : string) : option nat :=
  match s with
  | EmptyString => None
  | String a s' =>
      match rfind c s' with
      | Some i => Some (S i)
      | None => if Ascii.eqb a c then Some 0 else None
      end
  end.

(** The line break. *)
Definition LF : string := String (ascii_of_nat 10) EmptyString.

(** [not xs] for a list. *)
Definition is_nil {A : Type} (xs : list A) : bool :=
  match xs with [] => true | _ :: _ => false end.

(** [str(n)] for a non-negative integer. *)
Definition of_nat (n : nat) : string :=
  NilEmpty.string_of_uint (Nat.to_uint n).

End Str.

(** ** pathlib on POSIX *)

Module PurePath.

(** The index of the final suffix of a file name, when it has one:
    [i = name.rfind('.')] with [0 < i < len(name) - 1]. *)
Definition suffix_index (name : string) : option nat :=
  match Str.rfind "." name with
  | Some i =>
      if ((0 <? i) && (i <? String.length name - 1))%nat then Some i else None
  | None => None
  end.

(** [PurePath(name).suffix] *)
Definition suffix (name : string) : string :=
  match suffix_index name with
  | Some i => substring i (String.length name - i) name
  | None => ""
  end.

(** [PurePath(name).stem] *)
Definition stem (name : string) : string :=
  match suffix_index name with
  | Some i => substring 0 i name
  | None => name
  end.

(** [posixpath.join(a, b)] *)
Definition join (a b : string) : string :=
  if Str.startswith "/" b then b
  else if String.eqb a "" || Str.endswith "/" a then a ++ b
  else a ++ "/" ++ b.

(** The root of a POSIX path: exactly two leading slashes are kept. *)
Definition root (p : string) : string :=
  if Str.startswith "/" p then
    if Str.startswith "//" p && negb (Str.startswith "///" p) then "//" else "/"
  else "".

(** The components: empty and ["."] segments are dropped. *)
Definition parts (p : string) : list string :=
  filter (fun x => negb (String.eqb x "") && negb (String.eqb x "."))
         (Str.split "/" p).

(** [str(PurePosixPath(p))] *)
Definition str (p : string) : string :=
  match root p ++ Str.join "/" (parts p) with
  | EmptyString => "."
  | s => s
  end.

(** [PurePosixPath(p).name] *)
Definition name (p : string) : string := last (parts p) "".

End PurePath.

(** ** Python dictionaries with string keys, in insertion order *)

Section Dict.

Context {V : Type}.

Definition pydict := list (string * V).

(** [d.get(k)] *)
Fixpoint dict_get (d : pydict) (k : string) : option V :=
  match d with
  | [] => None
  | (k', v) :: d' => if String.eqb k k' then Some v else dict_get d' k
  end.

(** [k in d] *)
Definition dict_mem (k : string) (d : pydict) : bool :=
  match dict_get d k with Some _ => true | None => false end.

(** [d[k] = v]: a present key keeps its place, a new key goes last. *)
Fixpoint dict_set (d : pydict) (k : string) (v : V) : pydict :=
  match d with
  | [] => [(k, v)]
  | (k', v') :: d' =>
      if String.eqb k k' then (k', v) :: d' else (k', v') :: dict_set d' k v
  end.

(** [not d] *)
Definition dict_is_empty (d : pydict) : bool :=
  match d with [] => true | _ :: _ => false end.

Definition dict_keys (d : pydict) : list string := map fst d.
Definition dict_values (d : pydict) : list V := map snd d.

End Dict.

Arguments pydict : clear implicits.

(** ** The file system as the bridges see it *)

Record FS := {
  path_exists : string -> bool;   (* [Path(p).exists()] *)
  scandir : list string           (* entry names of MODELS_DIR, in listing order *)
}.

(** ** Child processes *)

(** One call of [process.stdout.readline()]: a line, or an exception. *)
Inductive read_event :=
| Readline (line : string)
| ReadRaises (e : string).

(** What [subprocess.Popen(cmd, ...)] does: it raises, or the child runs
    with the given standard output, exit code and standard error. *)
Inductive popen_result :=
| PopenRaises (e : string)
| Started (stdout : list read_event) (returncode : Z) (stderr : string).

(** ** Values shared by both bridges *)

Inductive script := gpu_bridge | gpu_bridge_v2.

(** A Python call that returns or raises. *)
Inductive result (A : Type) :=
| Return (a : A)
| Raise (e : string).
Arguments Return {A} a.
Arguments Raise {A} e.

(** [jsonify(fields), status] *)
Record response := {
  status : nat;
  body : list (string * string)
}.

Record LlamaCppSession := {
  model_path : string;
  gpu_layers : nat;
  process : option nat            (* the child, by its index in [popen_calls] *)
}.

Record server := {
  disk : FS;
  MODEL_REGISTRY : pydict string;
  ACTIVE_SESSIONS : pydict LlamaCppSession;
  popen_calls : list (list string)   (* every command line handed to Popen *)
}.

Definition set_disk (s : server) (d : FS) : server :=
  {| disk := d; MODEL_REGISTRY := MODEL_REGISTRY s;
     ACTIVE_SESSIONS := ACTIVE_SESSIONS s; popen_calls := popen_calls s |}.

Definition set_registry (s : server) (r : pydict string) : server :=
  {| disk := disk s; MODEL_REGISTRY := r;
     ACTIVE_SESSIONS := ACTIVE_SESSIONS s; popen_calls := popen_calls s |}.

Definition set_sessions (s : server) (a : pydict LlamaCppSession) : server :=
  {| disk := disk s; MODEL_REGISTRY := MODEL_REGISTRY s;
     ACTIVE_SESSIONS := a; popen_calls := popen_calls s |}.

Definition log_popen (s : server) (cmd : list string) : server :=
  {| disk := disk s; MODEL_REGISTRY := MODEL_REGISTRY s;
     ACTIVE_SESSIONS := ACTIVE_SESSIONS s;
     popen_calls := (popen_calls s ++ [cmd])%list |}.

(** The sampling options, each held as its [str(...)] image. *)
Record options := {
  max_tokens : string;
  temperature : string;
  top_p : string;
  top_k : string;
  repeat_penalty : string;
  seed : option string
}.

(** Statements that update the registry under construction. *)
Definition stmt := pydict string -> pydict string.

Definition assign (k v : string) : stmt := fun d => dict_set d k v.
Definition seq (a b : stmt) : stmt := fun d => b (a d).
Definition when (c : bool) (body : stmt) : stmt :=
  fun d => if c then body d else d.
Definition ifelse (c : bool) (a b : stmt) : stmt :=
  fun d => if c then a d else b d.
Definition pass : stmt := fun d => d.

Declare Scope stmt_scope.
Delimit Scope stmt_scope with stmt.
Notation "a ;; b" := (seq a b)
  (at level 61, right associativity) : stmt_scope.

(** Python truthiness of an [Optional[str]]. *)
Definition truthy (o : option string) : bool :=
  match o with
  | Some EmptyString => false
  | Some _ => true
  | None => false
  end.

(** ** The persistent session's poll loop: data *)

(** One [self.output_queue.get(timeout=0.1)]: a line, or [queue.Empty]. *)
Inductive poll :=
| Line (line : string)
| QueueEmpty.

(** One iteration of the loop as the environment decides it: what the
    poll gave, and [time.time() - start_time] in milliseconds as that
    iteration reads it. *)
Record tick := {
  got : poll;
  elapsed : Z
}.

(** The locals of [generate], and the chunks yielded so far. *)
Record collect := {
  response_lines : list string;
  empty_line_count : nat;
  yielded : list string
}.

(** The loop over a finite run of ticks: it left the loop ([Finished],
    with the ticks not consumed), or it is still polling when the run is
    used up ([Polling]). *)
Inductive outcome :=
| Finished (c : collect) (rest : list tick)
| Polling (c : collect).

(** What the consumer of the generator has observed: every chunk up to
    exhaustion, or the chunks so far of a generator that is still
    inside its loop. *)
Inductive generated :=
| Exhausted (chunks : list string)
| Blocked (chunks : list string).

(** ** Runs of ticks used in the statements *)

Definition at_ms (p : poll) (t : Z) : tick := {| got := p; elapsed := t |}.

(** [n] polls that find the queue empty, 100 ms apart, from [t0] on. *)
Fixpoint silence (n : nat) (t0 : Z) : list tick :=
  match n with
  | O => []
  | S n' => at_ms QueueEmpty t0 :: silence n' (t0 + 100)%Z
  end.

(** The lines "Hi", "", "", "there", then three seconds of silence. *)
Definition hi_there_ticks : list tick :=
  ([ at_ms (Line "Hi") 100; at_ms (Line "") 200; at_ms (Line "") 300;
     at_ms (Line "there") 400 ] ++ silence 30 500)%list.

(** ** Concrete environments used in the examples *)

Definition termux_models : string :=
  "/data/data/com.termux/files/home/PocketLLM/models".

Definition termux_llama : string :=
  "/data/data/com.termux/files/home/llama.cpp/build/bin/main".

(** A disk whose model directory exists and holds the given entries. *)
Definition disk_with (entries : list string) : FS :=
  {| path_exists := fun p =>
       String.eqb p termux_models
       || existsb (fun n => String.eqb p (termux_models ++ "/" ++ n)) entries;
     scandir := entries |}.

(** A server just started on that disk, before its first scan. *)
Definition fresh_server (entries : list string) : server :=
  {| disk := disk_with entries; MODEL_REGISTRY := [];
     ACTIVE_SESSIONS := []; popen_calls := [] |}.

(** A child that prints a banner and two lines, and exits 0. *)
Definition hello_world_lines : list string :=
  [ "system_info: x" ++ Str.LF; "Hello" ++ Str.LF; "world" ++ Str.LF ].

Definition hello_world_child (cmd : list string) : popen_result :=
  Started (map Readline hello_world_lines) 0 "".

(** The same output from a child that exits 1. *)
Definition hello_world_failing_child (cmd : list string) : popen_result :=
  Started (map Readline hello_world_lines) 1 "ggml: out of memory".

(** A launch that fails: the binary is not there. *)
Definition missing_binary (cmd : list string) : popen_result :=
  PopenRaises "[Errno 2] No such file or directory".

Definition default_options : options :=
  {| max_tokens := "512"; temperature := "0.7"; top_p := "0.9";
     top_k := "40"; repeat_penalty := "1.1"; seed := None |}.

(** A child whose output cannot be read after its first line. *)
Definition unreadable_child (cmd : list string) : popen_result :=
  Started [Readline ("Hello" ++ Str.LF); ReadRaises "invalid start byte"] 0 "".

(** A server of the first bridge with one session, its child running. *)
Definition one_session_server : server :=
  {| disk := disk_with ["phi-2.gguf"];
     MODEL_REGISTRY := [];
     ACTIVE_SESSIONS :=
       [("phi", {| model_path := termux_models ++ "/" ++ "phi-2.gguf";
                   gpu_layers := 16; process := Some 0 |})];
     popen_calls := [[termux_llama]] |}.

(** ** The bridges *)

Section Bridge.

(** Configuration computed at import time, and the environment. *)
Variable MODELS_DIR : string.          (* [str(Path.home() / "PocketLLM" / "models")] *)
Variable LLAMA_BIN : string.           (* [str(LLAMA_BIN)] *)
Variable DEFAULT_THREADS : nat.        (* [os.cpu_count() or 4] *)
Variable OLLAMA_GPU_LAYERS : nat.      (* [int(os.getenv('OLLAMA_GPU_LAYERS', 16))] *)
Variable sha256_hexdigest : string -> string.
Variable popen : list string -> popen_result.

Definition DEFAULT_GPU_LAYERS (v : script) : nat :=
  match v with
  | gpu_bridge => 16
  | gpu_bridge_v2 => OLLAMA_GPU_LAYERS
  end.

Definition DEFAULT_CONTEXT : nat := 4096.

(** *** File system operations on the model directory *)

(** [MODELS_DIR.mkdir(parents=True, exist_ok=True)]: the directory exists
    afterwards; one created here has no entries. *)
Definition mkdir (d : FS) : FS :=
  if path_exists d MODELS_DIR then d
  else {| path_exists := fun p => String.eqb p MODELS_DIR || path_exists d p;
          scandir := [] |}.

(** [MODELS_DIR.glob("*.gguf")], as entry names in listing order. *)
Definition glob_gguf (d : FS) : list string :=
  filter (Str.endswith ".gguf") (scandir d).

(** [MODELS_DIR / name] *)
Definition in_models_dir (name : string) : string :=
  PurePath.join MODELS_DIR name.

(** *** [scan_models] *)

(** The body of the loop over [MODELS_DIR.glob("*.gguf")] for the entry
    named [model_file]. *)
Definition scan_file (v : script) (model_file : string) : stmt :=
  let path_str := MODELS_DIR ++ "/" ++ model_file in
  let filename := model_file in
  let stem := PurePath.stem model_file in
  let stem_lower := Str.lower stem in
  let simple_name := Str.replace "." "_" (Str.replace "-" "_" stem_lower) in
  (assign filename path_str ;;
   assign stem path_str ;;
   assign stem_lower path_str ;;
   assign simple_name path_str ;;
   when (Str.contains "tinyllama" stem_lower)
     (assign "tinyllama" path_str ;;
      assign "tinyllama:latest" path_str ;;
      assign "tinyllama:1b" path_str ;;
      assign "tinyllama:1.1b" path_str) ;;
   when (Str.contains "llama" stem_lower && Str.contains "3.2" stem_lower)
     (assign "llama3.2:1b" path_str ;;
      assign "llama3.2" path_str ;;
      assign "llama3:latest" path_str ;;
      assign "llama3" path_str) ;;
   when (Str.contains "llama3" stem_lower)
     (assign "llama3" path_str ;;
      assign "llama3:latest" path_str ;;
      match v with
      | gpu_bridge =>
          ifelse (Str.contains "1b" stem_lower)
            (assign "llama3:1b" path_str ;;
             assign "llama3.2:1b" path_str)
            (ifelse (Str.contains "3b" stem_lower)
               (assign "llama3:3b" path_str)
               (when (Str.contains "7b" stem_lower || Str.contains "8b" stem_lower)
                  (assign "llama3:8b" path_str)))
      | gpu_bridge_v2 =>
          when (Str.contains "1b" stem_lower)
            (assign "llama3:1b" path_str ;;
             assign "llama3.2:1b" path_str)
      end) ;;
   when (Str.contains "phi" stem_lower)
     (assign "phi3:mini" path_str ;;
      assign "phi3:latest" path_str ;;
      assign "phi3" path_str ;;
      assign "phi" path_str) ;;
   when (Str.contains "gemma" stem_lower)
     (assign "gemma:2b" path_str ;;
      assign "gemma:latest" path_str ;;
      assign "gemma" path_str) ;;
   when (Str.contains "qwen" stem_lower)
     (assign "qwen:1.8b" path_str ;;
      assign "qwen:latest" path_str ;;
      assign "qwen:1.5b" path_str ;;
      assign "qwen" path_str))%stmt.

(** The [for] loop of [scan_models]. *)
Definition scan_loop (v : script) (files : list string) : stmt :=
  fun reg => fold_left (fun r model_file => scan_file v model_file r) files reg.

Definition scan_models (v : script) (s : server) : server :=
  let s := set_registry s [] in
  if negb (path_exists (disk s) MODELS_DIR) then
    set_disk s (mkdir (disk s))
  else
    set_registry s (scan_loop v (glob_gguf (disk s)) (MODEL_REGISTRY s)).

(** *** [get_model_path] *)

(** [for variant in variations: ...], [Some] when the loop returns. *)
Fixpoint try_variations (reg : pydict string) (variations : list string)
  : option string :=
  match variations with
  | [] => None
  | variant :: rest =>
      if dict_mem variant reg then dict_get reg variant
      else if dict_mem (Str.lower variant) reg then dict_get reg (Str.lower variant)
      else try_variations reg rest
  end.

(** [for key, path in MODEL_REGISTRY.items(): ...], [Some] when the loop
    returns. *)
Fixpoint partial_match (model_name : string) (items : pydict string)
  : option string :=
  match items with
  | [] => None
  | (key, path) :: rest =>
      if Str.contains (Str.lower model_name) (Str.lower key)
         || Str.contains (Str.lower key) (Str.lower model_name)
      then Some path
      else partial_match model_name rest
  end.

Definition get_model_path (v : script) (s : server) (model_name : string)
  : server * option string :=
  let s := if dict_is_empty (MODEL_REGISTRY s) then scan_models v s else s in
  let REG := MODEL_REGISTRY s in
  (s,
   if dict_mem model_name REG then dict_get REG model_name
   else
     let model_lower := Str.lower model_name in
     if dict_mem model_lower REG then dict_get REG model_lower
     else
       let variations :=
         [ Str.replace " " "-" model_name;
           Str.replace " " "_" model_name;
           Str.replace "-" "_" model_name;
           Str.replace "_" "-" model_name ] in
       match try_variations REG variations with
       | Some path => Some path
       | None =>
           let without_tag :=
             if Str.contains ":" model_name then
               let base_name := hd "" (Str.split ":" model_name) in
               if dict_mem base_name REG then dict_get REG base_name
               else if dict_mem (base_name ++ ":latest") REG
               then dict_get REG (base_name ++ ":latest")
               else None
             else None in
           match without_tag with
           | Some path => Some path
           | None =>
             match partial_match model_name REG with
             | Some path => Some path
             | None =>
                 let model_path := in_models_dir model_name in
                 if path_exists (disk s) (PurePath.str model_path)
                    && String.eqb (PurePath.suffix (PurePath.name model_path)) ".gguf"
                 then Some (PurePath.str model_path)
                 else
                   let model_path_with_ext :=
                     in_models_dir (model_name ++ ".gguf") in
                   if path_exists (disk s) (PurePath.str model_path_with_ext)
                   then Some (PurePath.str model_path_with_ext)
                   else None
             end
           end
       end).

(** *** [LlamaCppSession] *)

(** [LlamaCppSession(model_path)] *)
Definition new_session (model_path : string) : LlamaCppSession :=
  {| model_path := model_path; gpu_layers := DEFAULT_GPU_LAYERS gpu_bridge;
     process := None |}.

Definition session_cmd (self : LlamaCppSession) : list string :=
  [ LLAMA_BIN;
    "-m"; model_path self;
    "-ngl"; Str.of_nat (gpu_layers self);
    "-t"; Str.of_nat DEFAULT_THREADS;
    "-c"; Str.of_nat DEFAULT_CONTEXT;
    "--interactive";
    "--interactive-first";
    "--simple-io";
    "-n"; "512";
    "--temp"; "0.7";
    "--top-p"; "0.9";
    "--top-k"; "40";
    "--repeat-penalty"; "1.1" ].

(** [self.start()] *)
Definition start (s : server) (self : LlamaCppSession)
  : result (server * LlamaCppSession) :=
  match process self with
  | Some _ => Return (s, self)
  | None =>
      let cmd := session_cmd self in
      match popen cmd with
      | PopenRaises e => Raise e
      | Started _ _ _ =>
          Return (log_popen s cmd,
                  {| model_path := model_path self;
                     gpu_layers := gpu_layers self;
                     process := Some (List.length (popen_calls s)) |})
      end
  end.

(** The two updates of the locals inside the loop. *)
Definition count_blank (c : collect) : collect :=
  {| response_lines := response_lines c;
     empty_line_count := empty_line_count c + 1;
     yielded := yielded c |}.

Definition collect_line (stream : bool) (line : string) (c : collect) : collect :=
  {| response_lines := response_lines c ++ [line];
     empty_line_count := 0;
     yielded := if stream then yielded c ++ [(line ++ Str.LF)%string]
                else yielded c |}%list.

(** The [while True] loop of [generate] over the ticks that the output
    queue and the clock supply. *)
Fixpoint poll_loop (prompt : string) (stream : bool) (ticks : list tick)
  (c : collect) : outcome :=
  match ticks with
  | [] => Polling c
  | t :: ticks' =>
      match got t with
      | Line line =>
          if String.eqb (Str.strip line) (Str.strip prompt) then
            poll_loop prompt stream ticks' c            (* continue *)
          else if String.eqb line "" then
            let c := count_blank c in
            if (2 <? empty_line_count c)%nat then Finished c ticks'
            else if (30000 <? elapsed t)%Z then Finished c ticks'
            else poll_loop prompt stream ticks' c
          else
            let c := collect_line stream line c in
            if (30000 <? elapsed t)%Z then Finished c ticks'
            else poll_loop prompt stream ticks' c
      | QueueEmpty =>
          if negb (Str.is_nil (response_lines c)) && (2000 <? elapsed t)%Z
          then Finished c ticks'
          else poll_loop prompt stream ticks' c         (* continue *)
      end
  end.

Definition start_collect : collect :=
  {| response_lines := []; empty_line_count := 0; yielded := [] |}.

(** [self.generate(prompt, stream)] once the prompt is written: the
    chunks the generator yields over the given ticks. Output queued
    before the prompt was written has been discarded and is not part of
    [ticks]. *)
Definition generate_chunks (prompt : string) (stream : bool)
  (ticks : list tick) : generated :=
  match poll_loop prompt stream ticks start_collect with
  | Finished c _ =>
      Exhausted (if stream then yielded c
                 else yielded c ++ [Str.join Str.LF (response_lines c)])%list
  | Polling c => Blocked (yielded c)
  end.


(** *** The session directory *)

Definition get_or_create_session (s : server) (model_name : string)
  : result (server * option LlamaCppSession) :=
  let '(s, model_path) := get_model_path gpu_bridge s model_name in
  if negb (truthy model_path) then Return (s, None)
  else
    let path := match model_path with Some p => p | None => "" end in
    if negb (dict_mem model_name (ACTIVE_SESSIONS s)) then
      match start s (new_session path) with
      | Raise e => Raise e
      | Return (s, session) =>
          let s := set_sessions s (dict_set (ACTIVE_SESSIONS s) model_name session) in
          Return (s, dict_get (ACTIVE_SESSIONS s) model_name)
      end
    else Return (s, dict_get (ACTIVE_SESSIONS s) model_name).

(** *** The one-shot runner (v2) *)

Definition generation_cmd (model_path prompt : string) (o : options)
  : list string :=
  ([ LLAMA_BIN;
     "-m"; model_path;
     "-ngl"; Str.of_nat (DEFAULT_GPU_LAYERS gpu_bridge_v2);
     "-t"; Str.of_nat DEFAULT_THREADS;
     "-c"; Str.of_nat DEFAULT_CONTEXT;
     "-n"; max_tokens o;
     "--temp"; temperature o;
     "--top-p"; top_p o;
     "--top-k"; top_k o;
     "--repeat-penalty"; repeat_penalty o;
     "-p"; prompt;
     "--simple-io";
     "--no-display-prompt" ]
   ++ match seed o with
      | Some sd => ["-s"; sd]
      | None => []
      end)%list.

(** A line the runner drops: an internal banner of llama.cpp. *)
Definition is_banner (line : string) : bool :=
  Str.startswith "system_info:" line || Str.startswith "main:" line.

(** [for line in iter(process.stdout.readline, ''): ...]: the lines kept,
    the chunks yielded, and the exception that left the loop, if any.
    The end of the events is the end of the file, where [readline]
    returns the sentinel. *)
Fixpoint stream_lines (stream : bool) (stdout : list read_event)
  (full_response yielded : list string)
  : list string * list string * option string :=
  match stdout with
  | [] => (full_response, yielded, None)
  | ReadRaises e :: _ => (full_response, yielded, Some e)
  | Readline EmptyString :: _ => (full_response, yielded, None)
  | Readline line :: rest =>
      let line := Str.rstrip line in
      if negb (Str.startswith "system_info:" line)
         && negb (Str.startswith "main:" line)
      then stream_lines stream rest
             (full_response ++ [line])%list
             (if stream then yielded ++ [(line ++ Str.LF)%string] else yielded)%list
      else stream_lines stream rest full_response yielded
  end.

(** What a call of [run_llama_generation] leaves behind: the chunks it
    yielded, in order, and the failures it reported to [logger.error]
    (the traceback text is left out). *)
Record generation := {
  chunks : list string;
  errors_logged : list string
}.

Definition run_llama_generation (s : server) (model_path prompt : string)
  (o : options) (stream : bool) : server * generation :=
  let cmd := generation_cmd model_path prompt o in
  match popen cmd with
  | PopenRaises e =>
      (s, {| chunks := ["Error: " ++ e];
             errors_logged := ["Error running llama.cpp: " ++ e] |})
  | Started stdout returncode stderr =>
      let s := log_popen s cmd in
      match stream_lines stream stdout [] [] with
      | (_, yielded, Some e) =>
          (s, {| chunks := (yielded ++ [("Error: " ++ e)%string])%list;
                 errors_logged := ["Error running llama.cpp: " ++ e] |})
      | (full_response, yielded, None) =>
          (s, {| chunks := if stream then yielded
                           else (yielded ++ [Str.join Str.LF full_response])%list;
                 errors_logged := if (returncode =? 0)%Z then []
                                  else ["llama.cpp error: " ++ stderr] |})
      end
  end.

(** *** Routes *)

Record message := {
  role : string;
  content : string
}.

Record chat_request := {
  chat_model : string;
  chat_messages : list message;
  chat_stream : bool;
  chat_options : options
}.

(** One JSON object of a chat reply body. *)
Record chat_event := {
  event_content : string;
  event_done : bool
}.

Inductive reply :=
| Json (r : response)
| Body (mimetype : string) (events : list chat_event).

(** The prompt that v2's [chat] formats from the messages. *)
Definition chat_prompt (messages : list message) : string :=
  fold_left
    (fun prompt msg =>
       if String.eqb (role msg) "system" then
         prompt ++ "System: " ++ content msg ++ Str.LF ++ Str.LF
       else if String.eqb (role msg) "user" then
         prompt ++ "User: " ++ content msg ++ Str.LF ++ Str.LF
       else if String.eqb (role msg) "assistant" then
         prompt ++ "Assistant: " ++ content msg ++ Str.LF ++ Str.LF
       else prompt)
    messages ""
  ++ "Assistant: ".

(** [chat] of v2, with the body of the reply run to its end. *)
Definition chat (s : server) (data : chat_request) : server * reply :=
  let model_name := chat_model data in
  let '(s, model_path) := get_model_path gpu_bridge_v2 s model_name in
  if negb (truthy model_path) then
    (s, Json {| status := 404;
                body := [("error", "Model " ++ model_name ++ " not found")] |})
  else
    let path := match model_path with Some p => p | None => "" end in
    let prompt := chat_prompt (chat_messages data) in
    let '(s, g) :=
      run_llama_generation s path prompt (chat_options data) (chat_stream data) in
    if chat_stream data then
      (s, Body "text/event-stream"
            (map (fun chunk => {| event_content := chunk; event_done := false |})
                 (chunks g)
             ++ [{| event_content := ""; event_done := true |}])%list)
    else
      (s, Body "application/json"
            [{| event_content := String.concat "" (chunks g);
                event_done := true |}]).

(** [pull_model], the same in both bridges. *)
Definition pull_model (v : script) (s : server) (model_name : string)
  : server * response :=
  if Str.contains "embed" (Str.lower model_name)
     || Str.contains "minilm" (Str.lower model_name)
  then
    (s, {| status := 200;
           body := [("status", "success");
                    ("digest", substring 0 12 (sha256_hexdigest model_name));
                    ("note", "Embedding model simulated for compatibility")] |})
  else
    let '(s, model_path) := get_model_path v s model_name in
    if truthy model_path then
      (s, {| status := 200;
             body := [("status", "success");
                      ("digest", substring 0 12 (sha256_hexdigest model_name))] |})
    else
      (s, {| status := 404;
             body := [("error", "Model " ++ model_name
                                ++ " not found. Please download it first.")] |}).

(** ** The resolution rules as the specification lists them *)

Definition first_success {A : Type} (attempts : list (option A)) : option A :=
  fold_right (fun a later => match a with Some x => Some x | None => later end)
             None attempts.

(** Rule 1: exact alias match. *)
Definition rule_exact (reg : pydict string) (name : string) : option string :=
  dict_get reg name.

(** Rule 2: lowercase alias match. *)
Definition rule_lowercase (reg : pydict string) (name : string) : option string :=
  dict_get reg (Str.lower name).

(** Rule 3: the four separator transforms, each exact then lowercase. *)
Definition rule_transforms (reg : pydict string) (name : string) : option string :=
  first_success
    (flat_map (fun t => [dict_get reg t; dict_get reg (Str.lower t)])
       [ Str.replace " " "-" name; Str.replace " " "_" name;
         Str.replace "-" "_" name; Str.replace "_" "-" name ]).

(** Rule 4: for a name with a [:], the part before it, then that part
    suffixed [:latest]. *)
Definition rule_tag (reg : pydict string) (name : string) : option string :=
  if Str.contains ":" name then
    let base := hd "" (Str.split ":" name) in
    first_success [dict_get reg base; dict_get reg (base ++ ":latest")]
  else None.

(** Rule 5: the first alias, in iteration order, that contains the name
    or is contained in it, both lowercased. *)
Definition rule_substring (reg : pydict string) (name : string) : option string :=
  option_map snd
    (find (fun kv => Str.contains (Str.lower name) (Str.lower (fst kv))
                     || Str.contains (Str.lower (fst kv)) (Str.lower name))
          reg).

(** Rule 6: the name as a file of the model directory, as it is when it
    carries the extension, else with the extension appended. *)
Definition rule_file (d : FS) (name : string) : option string :=
  let p := in_models_dir name in
  let q := in_models_dir (name ++ ".gguf") in
  first_success
    [ if path_exists d (PurePath.str p)
         && String.eqb (PurePath.suffix (PurePath.name p)) ".gguf"
      then Some (PurePath.str p) else None;
      if path_exists d (PurePath.str q) then Some (PurePath.str q) else None ].

Definition six_rules (s : server) (name : string) : list (option string) :=
  [ rule_exact (MODEL_REGISTRY s) name;
    rule_lowercase (MODEL_REGISTRY s) name;
    rule_transforms (MODEL_REGISTRY s) name;
    rule_tag (MODEL_REGISTRY s) name;
    rule_substring (MODEL_REGISTRY s) name;
    rule_file (disk s) name ].

(** The registry a call of resolve works on: scanned first when empty. *)
Definition refreshed (v : script) (s : server) : server :=
  if dict_is_empty (MODEL_REGISTRY s) then scan_models v s else s.

(** The registries the program can hold: the initial empty one, or the
    result of a scan. *)
Inductive reachable_registry (v : script) : pydict string -> Prop :=
| reach_initial : reachable_registry v []
| reach_scanned (s : server) :
    reachable_registry v (MODEL_REGISTRY (scan_models v s)).

(** The entries that a scan of [d] visits. *)
Definition scanned (d : FS) : list string :=
  if path_exists d MODELS_DIR then glob_gguf d else [].

(** [writes K val st]: the statement [st] only assigns [val], and only
    to keys in [K]. *)
Inductive writes (K : string -> Prop) (val : string) : stmt -> Prop :=
| writes_assign k : K k -> writes K val (assign k val)
| writes_seq a b : writes K val a -> writes K val b -> writes K val (seq a b)
| writes_when c a : writes K val a -> writes K val (when c a)
| writes_ifelse c a b :
    writes K val a -> writes K val b -> writes K val (ifelse c a b)
| writes_pass : writes K val pass.

(** The conventional family aliases that a scan can register. *)
Definition family_aliases : list string :=
  [ "tinyllama"; "tinyllama:latest"; "tinyllama:1b"; "tinyllama:1.1b";
    "llama3.2:1b"; "llama3.2"; "llama3:latest"; "llama3";
    "llama3:1b"; "llama3:3b"; "llama3:8b";
    "phi3:mini"; "phi3:latest"; "phi3"; "phi";
    "gemma:2b"; "gemma:latest"; "gemma";
    "qwen:1.8b"; "qwen:latest"; "qwen:1.5b"; "qwen" ].

(** The keys that the scan of one entry can assign. *)
Definition alias_key (model_file : string) (k : string) : Prop :=
  In k (model_file
        :: PurePath.stem model_file
        :: Str.lower (PurePath.stem model_file)
        :: Str.replace "." "_"
             (Str.replace "-" "_" (Str.lower (PurePath.stem model_file)))
        :: family_aliases).

(** A string has the character [c]. *)
Fixpoint has_char (c : ascii) (s : string) : bool :=
  match s with
  | EmptyString => false
  | String a s' => Ascii.eqb a c || has_char c s'
  end.

(** A reply of [pull_model] that reports success. *)
Definition pull_succeeded (r : response) : Prop :=
  status r = 200 /\ In ("status", "success") (body r).

(** A name that [pull_model] treats as an embedding model. *)
Definition embedding_name (model_name : string) : bool :=
  Str.contains "embed" (Str.lower model_name)
  || Str.contains "minilm" (Str.lower model_name).

(** ** Reading the outcome of the poll loop *)

(** The locals when the loop stopped, or when the ticks ran out. *)
Definition outcome_state (o : outcome) : collect :=
  match o with
  | Finished c _ => c
  | Polling c => c
  end.

(** The ticks the loop did not consume. *)
Definition outcome_rest (o : outcome) : list tick :=
  match o with
  | Finished _ rest => rest
  | Polling _ => []
  end.

(** The lines that a run of ticks takes from the queue, in order. *)
Definition queue_lines (ticks : list tick) : list string :=
  flat_map (fun t => match got t with
                     | Line line => [line]
                     | QueueEmpty => []
                     end) ticks.

(** A queue line that the loop appends to the response: neither the
    echo of the prompt nor blank. *)
Definition kept (prompt line : string) : bool :=
  negb (String.eqb (Str.strip line) (Str.strip prompt))
  && negb (String.eqb line "").

(** The chunks the consumer of a generator has seen. *)
Definition chunks_of (g : generated) : list string :=
  match g with
  | Exhausted cs => cs
  | Blocked cs => cs
  end.

(** A tick that reads nothing new into the response while nothing has
    been collected: an empty poll, or the echo of the prompt. *)
Definition idle_or_echo (prompt : string) (t : tick) : Prop :=
  match got t with
  | QueueEmpty => True
  | Line line => Str.strip line = Str.strip prompt
  end.

(** The lines of a run of ticks that go into the response. *)
Definition kept_lines (prompt : string) (ticks : list tick) : list string :=
  filter (kept prompt) (queue_lines ticks).

(** The chunk that streaming makes of a line. *)
Definition line_chunk (line : string) : string := line ++ Str.LF.


(** Two runs of the loop that have collected the same lines and count
    the same blank lines. *)
Definition same_progress (c1 c2 : collect) : Prop :=
  response_lines c1 = response_lines c2
  /\ empty_line_count c1 = empty_line_count c2.


(** *** Stopping sessions *)

(** [self.stop()]: the session afterwards, and the children it
    terminated and waited for. *)
Definition stop (self : LlamaCppSession) : LlamaCppSession * list nat :=
  match process self with
  | Some child =>
      ({| model_path := model_path self; gpu_layers := gpu_layers self;
          process := None |}, [child])
  | None => (self, [])
  end.

(** [cleanup()]: every session of the table is stopped, in table order,
    and the table is cleared. *)
Definition cleanup (s : server) : server * list nat :=
  (set_sessions s [],
   flat_map (fun session => snd (stop session))
            (dict_values (ACTIVE_SESSIONS s))).

(** The children of the sessions in the table are the children started
    so far, in the order of their start. *)
Definition sessions_tracked (s : server) : Prop :=
  map process (dict_values (ACTIVE_SESSIONS s))
  = map Some (List.seq 0 (List.length (popen_calls s))).

(** The session that [get_or_create_session] makes for a path when
    [started] children are running. *)
Definition started_session (path : string) (started : nat) : LlamaCppSession :=
  {| model_path := path; gpu_layers := DEFAULT_GPU_LAYERS gpu_bridge;
     process := Some started |}.


(** *** More of the v2 routes *)

(** The lines of the child's output that the one-shot runner keeps:
    stripped on the right, banners dropped. *)
Definition kept_output (lines : list string) : list string :=
  filter (fun l => negb (is_banner l)) (map Str.rstrip lines).

Record generate_request := {
  generate_model : string;
  generate_prompt : string;
  generate_stream : bool;
  generate_options : options
}.

(** [generate] of v2 (the [/api/generate] route), with the body of the
    reply run to its end; an event holds the [response] field. *)
Definition generate_route (s : server) (data : generate_request)
  : server * reply :=
  let model_name := generate_model data in
  let prompt := generate_prompt data in
  let '(s, model_path) := get_model_path gpu_bridge_v2 s model_name in
  if negb (truthy model_path) then
    (s, Json {| status := 404;
                body := [("error", "Model " ++ model_name ++ " not found")] |})
  else
    let path := match model_path with Some p => p | None => "" end in
    let '(s, g) :=
      run_llama_generation s path prompt (generate_options data)
        (generate_stream data) in
    if generate_stream data then
      (s, Body "text/event-stream"
            (map (fun chunk => {| event_content := chunk; event_done := false |})
                 (chunks g)
             ++ [{| event_content := ""; event_done := true |}])%list)
    else
      (s, Body "application/json"
            [{| event_content := String.concat "" (chunks g);
                event_done := true |}]).

(** The chunk that the one-shot runner yields for an exception. *)
Definition error_chunk (e : string) : string := "Error: " ++ e.


(** *** [list_models] and [show_model] *)

(** File metadata and the clock, as the routes read them. *)
Variable st_size : string -> N.            (* [Path(p).stat().st_size] *)
Variable modified_text : string -> string. (* [strftime] of [st_mtime] of [p] *)
Variable now_text : string.                (* [time.strftime(...)] at the call *)

(** One element of the [models] list. *)
Record model_entry := {
  entry_name : string;
  entry_model : string;
  entry_modified_at : string;
  entry_size : N;
  entry_digest : string;
  entry_format : string;
  entry_family : string;
  entry_parameter_size : string;
  entry_quantization_level : string
}.

(** The body of the first loop of [list_models] for one item of the
    registry. *)
Definition prefer (seen_files : pydict string) (item : string * string)
  : pydict string :=
  let '(name, path) := item in
  if negb (dict_mem path seen_files) then
    if Str.contains ":" name then dict_set seen_files path name
    else if negb (dict_mem path seen_files) then dict_set seen_files path name
    else seen_files
  else seen_files.

(** The first loop of [list_models]: from paths to preferred names. *)
Definition seen_files_of (reg : pydict string) : pydict string :=
  fold_left prefer reg [].

(** The family and parameter size that [list_models] reads off a
    lowercased file name. *)
Definition family_and_size (v : script) (filename_lower : string)
  : string * string :=
  if Str.contains "tinyllama" filename_lower then ("tinyllama", "1.1B")
  else if Str.contains "llama" filename_lower then
    ("llama",
     if Str.contains "1b" filename_lower then "1B"
     else if Str.contains "3b" filename_lower then "3B"
     else match v with
          | gpu_bridge =>
              if Str.contains "7b" filename_lower
                 || Str.contains "8b" filename_lower
              then "8B" else "1B"
          | gpu_bridge_v2 => "1B"
          end)
  else if Str.contains "phi" filename_lower then ("phi", "3.8B")
  else if Str.contains "gemma" filename_lower then ("gemma", "2B")
  else if Str.contains "qwen" filename_lower then ("qwen", "1.8B")
  else ("llama", "1B").

(** The entry that the second loop appends for a path that exists. *)
Definition entry_of (v : script) (item : string * string) : model_entry :=
  let '(path, preferred_name) := item in
  let filename_lower := Str.lower (PurePath.name path) in
  {| entry_name := preferred_name;
     entry_model := preferred_name;
     entry_modified_at := modified_text path;
     entry_size := st_size path;
     entry_digest := substring 0 12 (sha256_hexdigest preferred_name);
     entry_format := "gguf";
     entry_family := fst (family_and_size v filename_lower);
     entry_parameter_size := snd (family_and_size v filename_lower);
     entry_quantization_level := "Q4_K_M" |}.

(** The embedding model that the list always ends with. *)
Definition fake_embedding_entry : model_entry :=
  {| entry_name := "nomic-embed-text:latest";
     entry_model := "nomic-embed-text:latest";
     entry_modified_at := now_text;
     entry_size := 274302450%N;
     entry_digest := "0a109f422b47";
     entry_format := "gguf";
     entry_family := "nomic";
     entry_parameter_size := "137M";
     entry_quantization_level := "F16" |}.

Definition list_models (v : script) (s : server) : server * list model_entry :=
  let s := scan_models v s in
  let seen_files := seen_files_of (MODEL_REGISTRY s) in
  let models :=
    map (entry_of v)
        (filter (fun item => path_exists (disk s) (fst item)) seen_files) in
  (s, (models ++ [fake_embedding_entry])%list).

(** The reply of [show_model] for a path; the nested [details] object
    is written with dotted keys. *)
Definition show_body (v : script) (model_path : string)
  : list (string * string) :=
  [ ("license", "Apache 2.0");
    ("modelfile", "FROM " ++ PurePath.name model_path);
    ("parameters",
     match v with
     | gpu_bridge =>
         "gpu_layers " ++ Str.of_nat (DEFAULT_GPU_LAYERS gpu_bridge) ++ Str.LF
         ++ "threads " ++ Str.of_nat DEFAULT_THREADS
     | gpu_bridge_v2 =>
         "temperature 0.7" ++ Str.LF ++ "top_k 40" ++ Str.LF ++ "top_p 0.9"
     end);
    ("template", "{{ .Prompt }}");
    ("details.format", "gguf");
    ("details.families", "llama");
    ("details.parameter_size",
     match v with gpu_bridge => "1B" | gpu_bridge_v2 => "1.1B" end);
    ("details.quantization_level", "Q4_K_M") ].

Definition show_model (v : script) (s : server) (model_name : string)
  : server * response :=
  let '(s, model_path) := get_model_path v s model_name in
  if negb (truthy model_path) then
    (s, {| status := 404;
           body := [("error", "Model " ++ model_name ++ " not found")] |})
  else
    let path := match model_path with Some p => p | None => "" end in
    (s, {| status := 200; body := show_body v path |}).

(** The first alias of the registry, in iteration order, that maps to a
    path. *)
Definition first_alias (reg : pydict string) (path : string) : option string :=
  option_map fst (find (fun kv => String.eqb (snd kv) path) reg).


(** *** The routes of the first bridge *)



(** The prompt that [chat] of the first bridge builds. *)
Definition session_chat_prompt (messages : list message) : string :=
  fold_left
    (fun prompt msg =>
       if String.eqb (role msg) "system" then
         (content msg ++ Str.LF ++ Str.LF) ++ prompt
       else if String.eqb (role msg) "user" then
         prompt ++ ("User: " ++ content msg ++ Str.LF ++ "Assistant: ")
       else if String.eqb (role msg) "assistant" then
         prompt ++ (content msg ++ Str.LF)
       else prompt)
    messages "".





(** The text that a message adds to the prompt of the first bridge: at
    the front for a system message, at the back otherwise. *)
Definition is_system (msg : message) : bool := String.eqb (role msg) "system".

Definition front_text (msg : message) : string :=
  content msg ++ Str.LF ++ Str.LF.

Definition back_text (msg : message) : string :=
  if String.eqb (role msg) "user" then
    "User: " ++ content msg ++ Str.LF ++ "Assistant: "
  else if String.eqb (role msg) "assistant" then content msg ++ Str.LF
  else "".


(** *** The aliases of one file, exactly *)

(** The keys that the scan of the entry [model_file] assigns, in order
    (a key can occur more than once). *)
Definition assigned_keys (v : script) (model_file : string) : list string :=
  let stem := PurePath.stem model_file in
  let stem_lower := Str.lower stem in
  let simple_name := Str.replace "." "_" (Str.replace "-" "_" stem_lower) in
  (model_file :: stem :: stem_lower :: simple_name
   :: (if Str.contains "tinyllama" stem_lower
       then ["tinyllama"; "tinyllama:latest"; "tinyllama:1b"; "tinyllama:1.1b"]
       else [])
   ++ (if Str.contains "llama" stem_lower && Str.contains "3.2" stem_lower
       then ["llama3.2:1b"; "llama3.2"; "llama3:latest"; "llama3"]
       else [])
   ++ (if Str.contains "llama3" stem_lower
       then "llama3" :: "llama3:latest"
            :: match v with
               | gpu_bridge =>
                   if Str.contains "1b" stem_lower
                   then ["llama3:1b"; "llama3.2:1b"]
                   else if Str.contains "3b" stem_lower then ["llama3:3b"]
                   else if Str.contains "7b" stem_lower
                           || Str.contains "8b" stem_lower
                   then ["llama3:8b"] else []
               | gpu_bridge_v2 =>
                   if Str.contains "1b" stem_lower
                   then ["llama3:1b"; "llama3.2:1b"] else []
               end
       else [])
   ++ (if Str.contains "phi" stem_lower
       then ["phi3:mini"; "phi3:latest"; "phi3"; "phi"] else [])
   ++ (if Str.contains "gemma" stem_lower
       then ["gemma:2b"; "gemma:latest"; "gemma"] else [])
   ++ (if Str.contains "qwen" stem_lower
       then ["qwen:1.8b"; "qwen:latest"; "qwen:1.5b"; "qwen"] else []))%list.

(** [assigns val st keys]: the statement [st] assigns [val] to exactly
    the keys [keys], in that order. *)
Inductive assigns (val : string) : stmt -> list string -> Prop :=
| assigns_assign k : assigns val (assign k val) [k]
| assigns_seq a b ka kb :
    assigns val a ka -> assigns val b kb -> assigns val (seq a b) (ka ++ kb)
| assigns_when (c : bool) a ka :
    assigns val a ka -> assigns val (when c a) (if c then ka else [])
| assigns_ifelse (c : bool) a b ka kb :
    assigns val a ka -> assigns val b kb ->
    assigns val (ifelse c a b) (if c then ka else kb)
| assigns_pass : assigns val pass [].

(** Whether the scan of [model_file] assigns the key [k]. *)
Definition assigns_key (v : script) (k : string) (model_file : string) : bool :=
  existsb (String.eqb k) (assigned_keys v model_file).

(** ** Facts about dictionaries *)

Section DictFacts.

Context {V : Type}.
Implicit Types (d : pydict V) (k : string) (v : V).

Lemma dict_mem_get d k :
  dict_mem k d = true -> exists v, dict_get d k = Some v.
Proof.
  unfold dict_mem. destruct (dict_get d k) as [v|]; [eauto | discriminate].
Qed.

Lemma dict_mem_false d k : dict_mem k d = false -> dict_get d k = None.
Proof.
  unfold dict_mem. destruct (dict_get d k); [discriminate | reflexivity].
Qed.

Lemma dict_get_set_same d k v : dict_get (dict_set d k v) k = Some v.
Proof.
  induction d as [|[k' v'] d IH]; simpl.
  - now rewrite String.eqb_refl.
  - destruct (String.eqb k k') eqn:E; simpl; rewrite E; auto.
Qed.

Lemma dict_get_set_other d k v k' :
  k' <> k -> dict_get (dict_set d k v) k' = dict_get d k'.
Proof.
  intros Hne. induction d as [|[k0 v0] d IH]; simpl.
  - destruct (String.eqb_spec k' k); congruence.
  - destruct (String.eqb_spec k k0) as [->|Hk]; simpl.
    + destruct (String.eqb_spec k' k0); congruence.
    + now rewrite IH.
Qed.

Lemma dict_set_entries d k v kv :
  In kv (dict_set d k v) -> kv = (k, v) \/ In kv d.
Proof.
  induction d as [|[k0 v0] d IH]; simpl.
  - intros [<-|[]]. now left.
  - destruct (String.eqb_spec k k0) as [->|Hk]; simpl.
    + intros [<-|Hin]; auto.
    + intros [<-|Hin]; auto. destruct (IH Hin); auto.
Qed.

Lemma dict_get_In d k v : dict_get d k = Some v -> In (k, v) d.
Proof.
  induction d as [|[k0 v0] d IH]; simpl; [discriminate|].
  destruct (String.eqb_spec k k0) as [->|Hk].
  - intros [= ->]. now left.
  - auto.
Qed.

Lemma dict_set_not_nil d k v : dict_set d k v <> [].
Proof.
  destruct d as [|[k0 v0] d]; simpl; [discriminate|].
  destruct (String.eqb k k0); discriminate.
Qed.

End DictFacts.

(** ** Facts about statements *)

Lemma writes_get K val st (d : pydict string) x :
  writes K val st ->
  dict_get (st d) x = dict_get d x \/ (K x /\ dict_get (st d) x = Some val).
Proof.
  intros W. revert d. induction W; intros d.
  - unfold assign. destruct (string_dec x k) as [->|Hne].
    + right. split; [assumption | apply dict_get_set_same].
    + left. now apply dict_get_set_other.
  - unfold seq. destruct (IHW2 (a d)) as [E|[HK E]].
    + rewrite E. apply IHW1.
    + right. auto.
  - unfold when. destruct c; auto.
  - unfold ifelse. destruct c; auto.
  - now left.
Qed.

Lemma writes_entries K val st (d : pydict string) kv :
  writes K val st ->
  In kv (st d) -> In kv d \/ (K (fst kv) /\ snd kv = val).
Proof.
  intros W. revert d. induction W; intros d.
  - unfold assign. intros Hin.
    destruct (dict_set_entries _ _ _ _ Hin) as [->|H1]; auto.
  - unfold seq. intros Hin. destruct (IHW2 _ Hin) as [H1|H1]; auto.
  - unfold when. destruct c; auto.
  - unfold ifelse. destruct c; auto.
  - auto.
Qed.

Lemma writes_not_nil K val st (d : pydict string) :
  writes K val st -> d <> [] -> st d <> [].
Proof.
  intros W. revert d. induction W; intros d Hd; auto.
  - apply dict_set_not_nil.
  - unfold seq. auto.
  - unfold when. destruct c; auto.
  - unfold ifelse. destruct c; auto.
Qed.

(** ** Facts about the scan *)

(** Walks a registry statement down to its assignments. *)
Ltac writes_steps :=
  repeat match goal with
         | |- writes _ _ (seq _ _) => apply writes_seq
         | |- writes _ _ (when _ _) => apply writes_when
         | |- writes _ _ (ifelse _ _ _) => apply writes_ifelse
         | |- writes _ _ pass => apply writes_pass
         | |- writes _ _ (match ?x with gpu_bridge => _ | gpu_bridge_v2 => _ end) =>
             destruct x
         end;
  apply writes_assign; unfold alias_key, family_aliases;
  repeat first [ left; reflexivity | right ].

Lemma scan_file_writes v model_file :
  writes (alias_key model_file) (MODELS_DIR ++ "/" ++ model_file)
         (scan_file v model_file).
Proof. cbv beta zeta delta [scan_file]. writes_steps. Qed.

Lemma scan_models_disk_present v s :
  path_exists (disk s) MODELS_DIR = true ->
  scan_models v s
  = set_registry s (scan_loop v (glob_gguf (disk s)) []).
Proof.
  intros H. unfold scan_models. simpl. rewrite H. reflexivity.
Qed.

Lemma scan_models_disk_absent v s :
  path_exists (disk s) MODELS_DIR = false ->
  scan_models v s = set_disk (set_registry s []) (mkdir (disk s)).
Proof.
  intros H. unfold scan_models. simpl. rewrite H. reflexivity.
Qed.

Lemma mkdir_exists d : path_exists (mkdir d) MODELS_DIR = true.
Proof.
  unfold mkdir. destruct (path_exists d MODELS_DIR) eqn:E; [assumption|].
  simpl. now rewrite String.eqb_refl.
Qed.

Lemma mkdir_absent_scandir d :
  path_exists d MODELS_DIR = false -> scandir (mkdir d) = [].
Proof.
  intros H. unfold mkdir. now rewrite H.
Qed.

Lemma scan_models_registry v s :
  MODEL_REGISTRY (scan_models v s) = scan_loop v (scanned (disk s)) [].
Proof.
  unfold scanned. destruct (path_exists (disk s) MODELS_DIR) eqn:E.
  - now rewrite (scan_models_disk_present v s E).
  - now rewrite (scan_models_disk_absent v s E).
Qed.

(** C5. [scan_models] is a function of the model directory alone: it
    starts from the empty mapping whatever the registry held, so two
    servers with the same disk get the same registry, and a second scan
    right after the first (whose only effect on the disk is to create a
    missing model directory) yields the same mapping and leaves the disk
    as the first left it. *)
Theorem scan_models_idempotent (v : script) (s : server) :
  MODEL_REGISTRY (scan_models v (scan_models v s))
  = MODEL_REGISTRY (scan_models v s)
  /\ disk (scan_models v (scan_models v s)) = disk (scan_models v s)
  /\ (forall s' : server,
        disk s' = disk s ->
        MODEL_REGISTRY (scan_models v s') = MODEL_REGISTRY (scan_models v s))
  /\ MODEL_REGISTRY (scan_models v s)
     = scan_loop v (scanned (disk s)) [].
Proof.
  destruct (path_exists (disk s) MODELS_DIR) eqn:E.
  - rewrite (scan_models_disk_present v s E).
    assert (E' : path_exists
                   (disk (set_registry s (scan_loop v (glob_gguf (disk s)) [])))
                   MODELS_DIR = true) by exact E.
    rewrite (scan_models_disk_present v _ E'). simpl.
    repeat split.
    + intros s' Hd. rewrite scan_models_disk_present by (now rewrite Hd).
      simpl. now rewrite Hd.
    + unfold scanned. now rewrite E.
  - rewrite (scan_models_disk_absent v s E).
    assert (E' : path_exists
                   (disk (set_disk (set_registry s []) (mkdir (disk s))))
                   MODELS_DIR = true) by (simpl; apply mkdir_exists).
    rewrite (scan_models_disk_present v _ E'). simpl.
    unfold glob_gguf. rewrite (mkdir_absent_scandir _ E). simpl.
    repeat split.
    + intros s' Hd. rewrite scan_models_disk_absent by (now rewrite Hd).
      reflexivity.
    + unfold scanned. now rewrite E.
Qed.

(** ** Facts about resolution *)

Lemma first_success_none {A : Type} (l : list (option A)) :
  first_success l = None <-> Forall (fun a => a = None) l.
Proof.
  induction l as [|[x|] l IH]; simpl.
  - split; auto.
  - split; [discriminate | intros H; inversion H; discriminate].
  - rewrite IH. split; [auto | intros H; now inversion H].
Qed.


Lemma try_variations_spec (reg : pydict string) variations :
  try_variations reg variations
  = first_success
      (flat_map (fun t => [dict_get reg t; dict_get reg (Str.lower t)])
                variations).
Proof.
  induction variations as [|t rest IH]; simpl; [reflexivity|].
  unfold dict_mem. rewrite IH.
  destruct (dict_get reg t); [reflexivity|].
  destruct (dict_get reg (Str.lower t)); reflexivity.
Qed.

Lemma partial_match_spec model_name (reg : pydict string) :
  partial_match model_name reg = rule_substring reg model_name.
Proof.
  unfold rule_substring.
  induction reg as [|[key path] rest IH]; simpl; [reflexivity|].
  destruct (Str.contains (Str.lower model_name) (Str.lower key)
            || Str.contains (Str.lower key) (Str.lower model_name));
    [reflexivity | exact IH].
Qed.

Lemma get_model_path_refreshed v s model_name :
  fst (get_model_path v s model_name) = refreshed v s.
Proof. reflexivity. Qed.

Lemma get_model_path_first_success v s model_name :
  snd (get_model_path v s model_name)
  = first_success (six_rules (refreshed v s) model_name).
Proof.
  unfold get_model_path. fold (refreshed v s).
  generalize (refreshed v s). intros s'.
  cbv beta zeta delta [snd six_rules rule_exact rule_lowercase rule_tag rule_file].
  rewrite try_variations_spec, partial_match_spec.
  fold (rule_transforms (MODEL_REGISTRY s') model_name).
  unfold dict_mem. simpl.
  destruct (dict_get (MODEL_REGISTRY s') model_name); [reflexivity|].
  destruct (dict_get (MODEL_REGISTRY s') (Str.lower model_name)); [reflexivity|].
  destruct (rule_transforms (MODEL_REGISTRY s') model_name); [reflexivity|].
  destruct (Str.contains ":" model_name).
  - simpl.
    destruct (dict_get (MODEL_REGISTRY s') (hd "" (Str.split ":" model_name)));
      [reflexivity|].
    destruct (dict_get (MODEL_REGISTRY s')
                (hd "" (Str.split ":" model_name) ++ ":latest"));
      [reflexivity|].
    destruct (rule_substring (MODEL_REGISTRY s') model_name); [reflexivity|].
    destruct (path_exists _ _ && _); [reflexivity|].
    destruct (path_exists _ _); reflexivity.
  - destruct (rule_substring (MODEL_REGISTRY s') model_name); [reflexivity|].
    destruct (path_exists _ _ && _); [reflexivity|].
    destruct (path_exists _ _); reflexivity.
Qed.


(** ** Facts about strings and aliases *)

Lemma endswith_gguf_has_dot f :
  Str.endswith ".gguf" f = true -> has_char "." f = true.
Proof.
  induction f as [|a f IH]; [discriminate|].
  change (Str.endswith ".gguf" (String a f))
    with (String.eqb (String a f) ".gguf" || Str.endswith ".gguf" f).
  destruct (String.eqb_spec (String a f) ".gguf") as [E|_].
  - intros _. injection E as -> ->. reflexivity.
  - intros H. cbn [orb] in H. cbn [has_char].
    rewrite (IH H). apply orb_true_r.
Qed.

Lemma endswith_gguf_nonempty f : Str.endswith ".gguf" f = true -> f <> "".
Proof. intros H ->. discriminate. Qed.

Lemma replace_dot_has_no_dot s : has_char "." (Str.replace "." "_" s) = false.
Proof.
  induction s as [|a s IH]; simpl; [reflexivity|].
  rewrite IH, orb_false_r.
  destruct (Ascii.eqb_spec a "."); [reflexivity|].
  now apply Ascii.eqb_neq.
Qed.

Lemma lower_nonempty s : s <> "" -> Str.lower s <> "".
Proof. destruct s; [congruence | discriminate]. Qed.

Lemma replace_nonempty old new s : s <> "" -> Str.replace old new s <> "".
Proof. destruct s; [congruence | discriminate]. Qed.

Lemma rfind_in_range c s i : Str.rfind c s = Some i -> i < String.length s.
Proof.
  revert i. induction s as [|a s IH]; simpl; [discriminate|].
  intros i. destruct (Str.rfind c s) as [j|].
  - intros [= <-]. specialize (IH j eq_refl). lia.
  - destruct (Ascii.eqb a c); [intros [= <-]; lia | discriminate].
Qed.

Lemma stem_nonempty name : name <> "" -> PurePath.stem name <> "".
Proof.
  unfold PurePath.stem, PurePath.suffix_index. intros Hne.
  destruct (Str.rfind "." name) as [i|]; [|assumption].
  destruct ((0 <? i) && (i <? String.length name - 1))%nat eqn:E; [|assumption].
  apply andb_true_iff in E as [E _]. apply Nat.ltb_lt in E.
  destruct name as [|a name]; [congruence|].
  destruct i as [|i]; [lia|]. discriminate.
Qed.

Lemma contains_empty s : Str.contains "" s = true.
Proof. destruct s; reflexivity. Qed.

Lemma append_nonempty a c b : a ++ String c b <> "".
Proof. destruct a; discriminate. Qed.

Lemma family_aliases_no_gguf :
  Forall (fun k => Str.endswith ".gguf" k = false /\ k <> "") family_aliases.
Proof. repeat constructor; discriminate. Qed.

Lemma alias_key_nonempty g k :
  Str.endswith ".gguf" g = true -> alias_key g k -> k <> "".
Proof.
  intros Hg HK. pose proof (endswith_gguf_nonempty g Hg) as Hne.
  destruct HK as [<-|[<-|[<-|[<-|HK]]]].
  - assumption.
  - now apply stem_nonempty.
  - now apply lower_nonempty, stem_nonempty.
  - now apply replace_nonempty, replace_nonempty, lower_nonempty, stem_nonempty.
  - pose proof family_aliases_no_gguf as F. rewrite Forall_forall in F.
    apply (F k HK).
Qed.

(** The keys that the scan of [g] assigns leave the key [f] alone when
    [f] is another model file and neither stem form of [g] is [f]. *)
Lemma alias_key_no_collision f g :
  Str.endswith ".gguf" f = true ->
  g <> f ->
  PurePath.stem g <> f ->
  Str.lower (PurePath.stem g) <> f ->
  ~ alias_key g f.
Proof.
  intros Hf Hg Hs Hl HK.
  destruct HK as [E|[E|[E|[E|HK]]]]; try congruence.
  - pose proof (endswith_gguf_has_dot f Hf) as Hd.
    rewrite <- E, replace_dot_has_no_dot in Hd. discriminate.
  - pose proof family_aliases_no_gguf as F. rewrite Forall_forall in F.
    destruct (F f HK) as [F1 _]. congruence.
Qed.

Lemma scan_loop_entries v files (d : pydict string) kv :
  In kv (scan_loop v files d) ->
  In kv d \/
  exists g, In g files /\ alias_key g (fst kv)
            /\ snd kv = MODELS_DIR ++ "/" ++ g.
Proof.
  unfold scan_loop. revert d.
  induction files as [|g files IH]; simpl; intros d Hin; [now left|].
  destruct (IH _ Hin) as [H|(g' & H1 & H2 & H3)].
  - destruct (writes_entries _ _ _ _ _ (scan_file_writes v g) H) as [H'|[H1 H2]].
    + now left.
    + right. exists g. auto.
  - right. exists g'. auto.
Qed.

Lemma glob_gguf_In d g :
  In g (glob_gguf d) -> Str.endswith ".gguf" g = true.
Proof. unfold glob_gguf. intros H. now apply filter_In in H. Qed.

Lemma scanned_In d g : In g (scanned d) -> Str.endswith ".gguf" g = true.
Proof.
  unfold scanned. destruct (path_exists d MODELS_DIR); [apply glob_gguf_In|].
  intros [].
Qed.

(** Every entry of a scanned registry maps an alias of a visited file to
    that file's path. *)
Lemma scan_models_entries v s kv :
  In kv (MODEL_REGISTRY (scan_models v s)) ->
  exists g, In g (scanned (disk s)) /\ alias_key g (fst kv)
            /\ snd kv = MODELS_DIR ++ "/" ++ g.
Proof.
  rewrite scan_models_registry.
  intros H. destruct (scan_loop_entries _ _ _ _ H) as [[]|H']. exact H'.
Qed.

Lemma reachable_entries v reg kv :
  reachable_registry v reg -> In kv reg -> fst kv <> "" /\ snd kv <> "".
Proof.
  intros [|s] Hin; [destruct Hin|].
  destruct (scan_models_entries _ _ _ Hin) as (g & Hg & HK & ->).
  split.
  - apply (alias_key_nonempty g); [now apply (scanned_In (disk s))|assumption].
  - apply append_nonempty.
Qed.

Lemma reachable_refreshed v s :
  reachable_registry v (MODEL_REGISTRY s) ->
  reachable_registry v (MODEL_REGISTRY (refreshed v s)).
Proof.
  intros H. unfold refreshed.
  destruct (dict_is_empty (MODEL_REGISTRY s)); [constructor | assumption].
Qed.

Lemma dict_get_no_key (reg : pydict string) k :
  (forall kv, In kv reg -> fst kv <> k) -> dict_get reg k = None.
Proof.
  intros H. destruct (dict_get reg k) as [p|] eqn:E; [|reflexivity].
  apply dict_get_In in E. now destruct (H _ E).
Qed.

(** C9. On a non-empty registry, as a scan builds it, the empty name is
    never not-found: no alias is empty, so rules 1 to 4 fail, and rule 5
    takes the first alias in iteration order, since the empty name is a
    substring of every alias. *)
Theorem resolve_empty_name (v : script) (s : server) :
  reachable_registry v (MODEL_REGISTRY s) ->
  MODEL_REGISTRY (refreshed v s) <> [] ->
  (forall key path,
      In (key, path) (MODEL_REGISTRY (refreshed v s)) ->
      Str.contains (Str.lower "") (Str.lower key) = true)
  /\ snd (get_model_path v s "") <> None
  /\ exists key path rest,
       MODEL_REGISTRY (refreshed v s) = (key, path) :: rest
       /\ get_model_path v s "" = (refreshed v s, Some path).
Proof.
  intros Hreach Hne.
  assert (Hres : exists key path rest,
             MODEL_REGISTRY (refreshed v s) = (key, path) :: rest
             /\ get_model_path v s "" = (refreshed v s, Some path)).
  { pose proof (reachable_refreshed v s Hreach) as Hr.
    assert (Hk : dict_get (MODEL_REGISTRY (refreshed v s)) "" = None).
    { apply dict_get_no_key. intros kv Hin.
      apply (reachable_entries v _ kv Hr Hin). }
    destruct (MODEL_REGISTRY (refreshed v s)) as [|[key path] rest] eqn:E;
      [congruence|].
    exists key, path, rest. split; [reflexivity|].
    rewrite (surjective_pairing (get_model_path v s "")).
    rewrite get_model_path_refreshed, get_model_path_first_success.
    f_equal. unfold six_rules, rule_exact, rule_lowercase, rule_transforms,
      rule_tag, rule_substring. rewrite E. cbn [Str.lower Str.replace flat_map app].
    rewrite Hk. cbn -[Str.contains Str.lower dict_get].
    rewrite Hk. cbn -[Str.lower].
    now rewrite contains_empty. }
  split; [|split].
  - intros key path _. apply contains_empty.
  - destruct Hres as (key & path & rest & _ & ->). discriminate.
  - exact Hres.
Qed.

(** ** Scan then resolve *)

Lemma writes_keeps K val st (d : pydict string) x :
  writes K val st -> dict_get d x = Some val -> dict_get (st d) x = Some val.
Proof.
  intros W H. destruct (writes_get K val st d x W) as [E|[_ E]]; congruence.
Qed.

Lemma scan_file_sets_filename v f (d : pydict string) :
  dict_get (scan_file v f d) f = Some (MODELS_DIR ++ "/" ++ f).
Proof.
  cbv beta zeta delta [scan_file].
  match goal with
  | |- dict_get (seq (assign ?k ?p) ?rest ?d) _ = _ =>
      change (seq (assign k p) rest d) with (rest (dict_set d k p))
  end.
  apply (writes_keeps (alias_key f)); [writes_steps | apply dict_get_set_same].
Qed.

Lemma scan_loop_keeps_filename v f files (d : pydict string) :
  Str.endswith ".gguf" f = true ->
  (forall g, In g files -> g <> f ->
             PurePath.stem g <> f /\ Str.lower (PurePath.stem g) <> f) ->
  In f files \/ dict_get d f = Some (MODELS_DIR ++ "/" ++ f) ->
  dict_get (scan_loop v files d) f = Some (MODELS_DIR ++ "/" ++ f).
Proof.
  intros Hf. unfold scan_loop. revert d.
  induction files as [|g files IH]; simpl; intros d Hno Hin.
  - now destruct Hin.
  - apply IH; [intros g' Hg'; apply Hno; now right|].
    destruct (string_dec g f) as [->|Hne].
    + right. apply scan_file_sets_filename.
    + destruct Hin as [[E|Hin]|Hd]; [congruence | now left | right].
      destruct (Hno g (or_introl eq_refl) Hne) as [H1 H2].
      destruct (writes_get _ _ _ d f (scan_file_writes v g)) as [E|[HK _]].
      * now rewrite E.
      * now destruct (alias_key_no_collision f g Hf Hne H1 H2).
Qed.

(** C4, as the code has it. After a scan, resolving the exact file name
    of a visited model file gives that file's path, provided no other
    visited file has that name as its stem or as its lowercased stem (an
    alias of a file visited later replaces an equal key). *)
Theorem scan_then_resolve_filename (v : script) (s : server) (f : string) :
  In f (scanned (disk s)) ->
  (forall g, In g (scanned (disk s)) -> g <> f ->
             PurePath.stem g <> f /\ Str.lower (PurePath.stem g) <> f) ->
  get_model_path v (scan_models v s) f
  = (scan_models v s, Some (MODELS_DIR ++ "/" ++ f)).
Proof.
  intros Hin Hno.
  assert (Hget : dict_get (MODEL_REGISTRY (scan_models v s)) f
                 = Some (MODELS_DIR ++ "/" ++ f)).
  { rewrite scan_models_registry.
    apply scan_loop_keeps_filename; auto.
    now apply (scanned_In (disk s)). }
  assert (Href : refreshed v (scan_models v s) = scan_models v s).
  { unfold refreshed.
    destruct (MODEL_REGISTRY (scan_models v s)); [discriminate | reflexivity]. }
  rewrite (surjective_pairing (get_model_path v (scan_models v s) f)).
  rewrite get_model_path_refreshed, get_model_path_first_success, Href.
  unfold six_rules, rule_exact. simpl. now rewrite Hget.
Qed.

(** ** Paths returned by resolution are never empty *)

Lemma first_success_In {A : Type} (l : list (option A)) x :
  first_success l = Some x -> In (Some x) l.
Proof.
  induction l as [|[y|] l IH]; simpl; [discriminate| |auto].
  intros [= ->]. now left.
Qed.

Lemma str_nonempty p : PurePath.str p <> "".
Proof.
  unfold PurePath.str.
  destruct (PurePath.root p ++ Str.join "/" (PurePath.parts p)); discriminate.
Qed.

Lemma six_rules_nonempty s model_name path :
  (forall kv, In kv (MODEL_REGISTRY s) -> snd kv <> "") ->
  In (Some path) (six_rules s model_name) -> path <> "".
Proof.
  intros Hv Hin.
  assert (Hget : forall k, dict_get (MODEL_REGISTRY s) k = Some path -> path <> "").
  { intros k E. apply (Hv (k, path)). now apply dict_get_In. }
  unfold six_rules in Hin. simpl in Hin.
  destruct Hin as [E|[E|[E|[E|[E|[E|[]]]]]]].
  - now apply (Hget model_name).
  - now apply (Hget (Str.lower model_name)).
  - unfold rule_transforms in E. apply first_success_In in E. simpl in E.
    repeat (destruct E as [E|E]; [now apply Hget in E|]). destruct E.
  - unfold rule_tag in E. destruct (Str.contains ":" model_name); [|discriminate].
    apply first_success_In in E. simpl in E.
    repeat (destruct E as [E|E]; [now apply Hget in E|]). destruct E.
  - unfold rule_substring in E.
    destruct (find _ (MODEL_REGISTRY s)) as [kv|] eqn:F; [|discriminate].
    injection E as <-. apply find_some in F. now apply Hv.
  - unfold rule_file in E. apply first_success_In in E. simpl in E.
    destruct E as [E|[E|[]]].
    + destruct (_ && _); [|discriminate]. injection E as <-. apply str_nonempty.
    + destruct (path_exists _ _); [|discriminate]. injection E as <-.
      apply str_nonempty.
Qed.

Lemma get_model_path_truthy v s model_name :
  reachable_registry v (MODEL_REGISTRY s) ->
  truthy (snd (get_model_path v s model_name)) = true
  <-> exists path, snd (get_model_path v s model_name) = Some path.
Proof.
  intros Hreach. split.
  - destruct (snd (get_model_path v s model_name)) as [p|]; [eauto | discriminate].
  - intros [path E]. rewrite E.
    assert (Hp : path <> "").
    { rewrite get_model_path_first_success in E. apply first_success_In in E.
      apply (six_rules_nonempty _ _ _ (fun kv H =>
               proj2 (reachable_entries v _ kv (reachable_refreshed v s Hreach) H)) E). }
    destruct path; [congruence | reflexivity].
Qed.

(** C10. A name whose lowercase form contains "embed" or "minilm" pulls
    successfully whatever the registry and the disk hold, and the call
    leaves the server as it found it (no scan, no lookup); any other
    name pulls successfully exactly when it resolves to a path, and
    gets a 404 otherwise. *)
Theorem pull_model_success (v : script) (s : server) (model_name : string) :
  reachable_registry v (MODEL_REGISTRY s) ->
  (embedding_name model_name = true ->
     fst (pull_model v s model_name) = s
     /\ pull_succeeded (snd (pull_model v s model_name))
     /\ forall s' : server,
          pull_model v s' model_name = (s', snd (pull_model v s model_name)))
  /\ (embedding_name model_name = false ->
        fst (pull_model v s model_name) = fst (get_model_path v s model_name)
        /\ (pull_succeeded (snd (pull_model v s model_name))
            <-> exists path, snd (get_model_path v s model_name) = Some path)
        /\ (snd (get_model_path v s model_name) = None ->
            status (snd (pull_model v s model_name)) = 404)).
Proof.
  intros Hreach. unfold pull_model. fold (embedding_name model_name).
  split; intros ->.
  - simpl. repeat split. now left.
  - rewrite <- (get_model_path_truthy v s model_name Hreach).
    destruct (get_model_path v s model_name) as [s1 mp]. simpl.
    destruct (truthy mp) eqn:T; simpl.
    + split; [reflexivity|]. split.
      * split; [reflexivity|]. split; [reflexivity | now left].
      * intros ->. discriminate.
    + split; [reflexivity|]. split.
      * split; [intros [H _]; discriminate | discriminate].
      * reflexivity.
Qed.

(** ** Requests for an unknown model *)

Lemma scan_models_keeps_sessions v s :
  ACTIVE_SESSIONS (scan_models v s) = ACTIVE_SESSIONS s
  /\ popen_calls (scan_models v s) = popen_calls s.
Proof.
  unfold scan_models. simpl.
  destruct (path_exists (disk s) MODELS_DIR); simpl; auto.
Qed.

Lemma get_model_path_keeps_sessions v s model_name :
  ACTIVE_SESSIONS (fst (get_model_path v s model_name)) = ACTIVE_SESSIONS s
  /\ popen_calls (fst (get_model_path v s model_name)) = popen_calls s.
Proof.
  rewrite get_model_path_refreshed. unfold refreshed.
  destruct (dict_is_empty (MODEL_REGISTRY s)); [apply scan_models_keeps_sessions|].
  auto.
Qed.

(** C8. When a name resolves to not-found, the session directory of the
    first bridge returns no session without raising, and the chat route
    of the second answers 404; in both, the session table and the list
    of started child processes are what they were before the request. *)
Theorem unknown_model_starts_nothing (s : server) (model_name : string)
  (data : chat_request) :
  (snd (get_model_path gpu_bridge s model_name) = None ->
   exists s',
     get_or_create_session s model_name = Return (s', None)
     /\ ACTIVE_SESSIONS s' = ACTIVE_SESSIONS s
     /\ popen_calls s' = popen_calls s)
  /\ (snd (get_model_path gpu_bridge_v2 s (chat_model data)) = None ->
      exists s',
        chat s data
        = (s', Json {| status := 404;
                       body := [("error",
                                 "Model " ++ chat_model data ++ " not found")] |})
        /\ ACTIVE_SESSIONS s' = ACTIVE_SESSIONS s
        /\ popen_calls s' = popen_calls s).
Proof.
  split; intros Hnone.
  - exists (fst (get_model_path gpu_bridge s model_name)).
    split; [|apply get_model_path_keeps_sessions].
    unfold get_or_create_session.
    destruct (get_model_path gpu_bridge s model_name) as [s1 mp].
    simpl in Hnone. subst mp. reflexivity.
  - exists (fst (get_model_path gpu_bridge_v2 s (chat_model data))).
    split; [|apply get_model_path_keeps_sessions].
    unfold chat.
    destruct (get_model_path gpu_bridge_v2 s (chat_model data)) as [s1 mp].
    simpl in Hnone. subst mp. reflexivity.
Qed.

(** ** The poll loop *)

Lemma poll_loop_blank prompt stream t rest c :
  Str.strip prompt <> "" ->
  got t = Line "" ->
  poll_loop prompt stream (t :: rest) c
  = if (2 <? empty_line_count (count_blank c))%nat
    then Finished (count_blank c) rest
    else if (30000 <? elapsed t)%Z then Finished (count_blank c) rest
         else poll_loop prompt stream rest (count_blank c).
Proof.
  intros Hp Ht. simpl. rewrite Ht.
  change (Str.strip "") with "".
  destruct (String.eqb_spec "" (Str.strip prompt)) as [E|_]; [congruence|].
  reflexivity.
Qed.

Lemma poll_loop_line prompt stream t line rest c :
  got t = Line line ->
  Str.strip line <> Str.strip prompt ->
  line <> "" ->
  (elapsed t <= 30000)%Z ->
  poll_loop prompt stream (t :: rest) c
  = poll_loop prompt stream rest (collect_line stream line c).
Proof.
  intros Ht Hecho Hline Hbudget. simpl. rewrite Ht.
  destruct (String.eqb_spec (Str.strip line) (Str.strip prompt)); [congruence|].
  destruct (String.eqb_spec line ""); [congruence|].
  destruct (Z.ltb_spec 30000 (elapsed t)); [lia | reflexivity].
Qed.

Lemma poll_loop_silence prompt stream n t0 c :
  response_lines c = [] ->
  poll_loop prompt stream (silence n t0) c = Polling c.
Proof.
  intros Hc. revert t0. induction n as [|n IH]; intros t0; simpl; [reflexivity|].
  rewrite Hc. simpl. apply IH.
Qed.

Lemma poll_loop_all_empty prompt stream ticks c :
  response_lines c = [] ->
  Forall (fun t => got t = QueueEmpty) ticks ->
  poll_loop prompt stream ticks c = Polling c.
Proof.
  intros Hc H. induction H as [|t ticks Ht _ IH]; simpl; [reflexivity|].
  rewrite Ht, Hc. simpl. exact IH.
Qed.

(** With a blank prompt every blank line is taken for the echo of the
    prompt and skipped without being counted. *)
Lemma poll_loop_blank_prompt prompt stream t rest c :
  Str.strip prompt = "" ->
  got t = Line "" ->
  poll_loop prompt stream (t :: rest) c = poll_loop prompt stream rest c.
Proof.
  intros Hp Ht. simpl. rewrite Ht, Hp. reflexivity.
Qed.

(** C1, as the code has it. The blank-line rule leaves the loop on the
    third consecutive blank line ([empty_line_count > 2]), not on the
    second: two blank lines within the time budget leave the loop
    polling. So a queue that yields "Hi", "", "", "there" and then stays
    silent for three seconds is still being read after the second blank
    line, takes "there" into the response, and ends on the idle gap.
    A blank prompt is set aside: blank lines then count as its echo. *)
Theorem third_blank_line_ends_response (prompt : string) (stream : bool) :
  Str.strip prompt <> "" ->
  (forall c t1 t2 t3 rest,
      got t1 = Line "" -> got t2 = Line "" -> got t3 = Line "" ->
      (elapsed t1 <= 30000)%Z -> (elapsed t2 <= 30000)%Z ->
      empty_line_count c = 0 ->
      poll_loop prompt stream [t1; t2] c
      = Polling (count_blank (count_blank c))
      /\ poll_loop prompt stream (t1 :: t2 :: t3 :: rest) c
         = Finished (count_blank (count_blank (count_blank c))) rest)
  /\ (Str.strip prompt <> "Hi" -> Str.strip prompt <> "there" ->
      poll_loop prompt stream (firstn 3 hi_there_ticks) start_collect
      = Polling (count_blank (count_blank
                   (collect_line stream "Hi" start_collect)))
      /\ poll_loop prompt stream hi_there_ticks start_collect
         = Finished (collect_line stream "there"
                       (count_blank (count_blank
                          (collect_line stream "Hi" start_collect))))
                    (silence 13 2200)
      /\ generate_chunks prompt true hi_there_ticks
         = Exhausted ["Hi" ++ Str.LF; "there" ++ Str.LF]).
Proof.
  intros Hp. split.
  - intros c t1 t2 t3 rest H1 H2 H3 B1 B2 Hc.
    assert (E1 : (30000 <? elapsed t1)%Z = false) by (apply Z.ltb_ge; lia).
    assert (E2 : (30000 <? elapsed t2)%Z = false) by (apply Z.ltb_ge; lia).
    split.
    + rewrite (poll_loop_blank _ _ _ _ _ Hp H1).
      cbn [count_blank empty_line_count]. rewrite Hc, E1. cbn [Nat.add Nat.ltb Nat.leb].
      rewrite (poll_loop_blank _ _ _ _ _ Hp H2).
      cbn [count_blank empty_line_count]. rewrite Hc, E2. reflexivity.
    + rewrite (poll_loop_blank _ _ _ _ _ Hp H1).
      cbn [count_blank empty_line_count]. rewrite Hc, E1. cbn [Nat.add Nat.ltb Nat.leb].
      rewrite (poll_loop_blank _ _ _ _ _ Hp H2).
      cbn [count_blank empty_line_count]. rewrite Hc, E2. cbn [Nat.add Nat.ltb Nat.leb].
      rewrite (poll_loop_blank _ _ _ _ _ Hp H3).
      cbn [count_blank empty_line_count]. rewrite Hc. reflexivity.
  - intros Hhi Hthere.
    assert (Ehi : Str.strip "Hi" <> Str.strip prompt)
      by (change (Str.strip "Hi") with "Hi"; congruence).
    assert (Eth : Str.strip "there" <> Str.strip prompt)
      by (change (Str.strip "there") with "there"; congruence).
    assert (L : forall st rest,
               poll_loop prompt st
                 (at_ms (Line "Hi") 100 :: at_ms (Line "") 200
                  :: at_ms (Line "") 300 :: rest) start_collect
               = poll_loop prompt st rest
                   (count_blank (count_blank (collect_line st "Hi" start_collect)))).
    { intros st rest.
      rewrite (poll_loop_line _ _ _ "Hi") by (try reflexivity; try discriminate; auto).
      rewrite (poll_loop_blank prompt st (at_ms (Line "") 200) _ _ Hp eq_refl).
      cbn [at_ms elapsed count_blank collect_line empty_line_count
           start_collect Nat.add Nat.ltb Nat.leb Z.ltb Z.compare Pos.compare
           Pos.compare_cont].
      rewrite (poll_loop_blank prompt st (at_ms (Line "") 300) _ _ Hp eq_refl).
      reflexivity. }
    assert (F : forall st,
               poll_loop prompt st hi_there_ticks start_collect
               = Finished (collect_line st "there"
                             (count_blank (count_blank
                                (collect_line st "Hi" start_collect))))
                          (silence 13 2200)).
    { intros st. unfold hi_there_ticks. cbn [app]. rewrite L.
      rewrite (poll_loop_line _ _ _ "there")
        by (try reflexivity; try discriminate; auto).
      destruct st; reflexivity. }
    split; [|split].
    + unfold hi_there_ticks. cbn [app firstn]. apply L.
    + apply F.
    + unfold generate_chunks. rewrite F. reflexivity.
Qed.

(** C2, the run the code never leaves. While the output queue stays
    empty and no line has been collected, the loop keeps polling for any
    number of polls, far beyond thirty seconds: the 30-second test is
    only reached after a line has been read. *)
Theorem silent_queue_never_times_out (prompt : string) (stream : bool)
  (n : nat) (t0 : Z) :
  poll_loop prompt stream (silence n t0) start_collect = Polling start_collect
  /\ generate_chunks prompt stream (silence n t0) = Blocked []
  /\ poll_loop prompt stream (silence n 30100 ++ [at_ms QueueEmpty 3600000])%list
       start_collect
     = Polling start_collect.
Proof.
  split; [|split].
  - now apply poll_loop_silence.
  - unfold generate_chunks. now rewrite poll_loop_silence.
  - apply poll_loop_all_empty; [reflexivity|].
    apply Forall_app. split; [|repeat constructor].
    generalize 30100%Z. induction n as [|n IH]; intros z; constructor; auto.
Qed.

(** ** The one-shot runner *)

Lemma stream_lines_all (stream : bool) lines full_response yielded :
  Forall (fun l => l <> "") lines ->
  stream_lines stream (map Readline lines) full_response yielded
  = ((full_response
      ++ filter (fun l => negb (is_banner l)) (map Str.rstrip lines))%list,
     (yielded
      ++ if stream
         then map (fun l => (l ++ Str.LF)%string)
                (filter (fun l => negb (is_banner l)) (map Str.rstrip lines))
         else [])%list,
     None).
Proof.
  intros H. revert full_response yielded.
  induction H as [|l lines Hl _ IH]; intros full_response yielded.
  - destruct stream; simpl; now rewrite !app_nil_r.
  - destruct l as [|a l]; [congruence|].
    cbn [map stream_lines filter].
    assert (B : negb (Str.startswith "system_info:" (Str.rstrip (String a l)))
                && negb (Str.startswith "main:" (Str.rstrip (String a l)))
                = negb (is_banner (Str.rstrip (String a l))))
      by (unfold is_banner; now rewrite negb_orb).
    rewrite B. destruct (negb (is_banner (Str.rstrip (String a l)))).
    + rewrite IH. destruct stream; cbn [map]; now rewrite <- !app_assoc.
    + apply IH.
Qed.

(** C6. In streaming mode the one-shot runner yields, in arrival order,
    one chunk for every line of the child's output that is not a banner
    (a line that starts with [system_info:] or [main:]), each stripped
    on the right and closed by a line break; a child that prints
    "system_info: x", "Hello", "world" and exits 0 yields exactly
    "Hello" and "world", each with its line break, and logs no error. *)
Theorem one_shot_streams_lines_in_order (s : server) (model_path prompt : string)
  (o : options) (lines : list string) (returncode : Z) (stderr : string) :
  popen (generation_cmd model_path prompt o)
  = Started (map Readline lines) returncode stderr ->
  Forall (fun l => l <> "") lines ->
  chunks (snd (run_llama_generation s model_path prompt o true))
  = map (fun l => l ++ Str.LF)
        (filter (fun l => negb (is_banner l)) (map Str.rstrip lines))
  /\ (lines = ["system_info: x" ++ Str.LF; "Hello" ++ Str.LF; "world" ++ Str.LF] ->
      returncode = 0%Z ->
      snd (run_llama_generation s model_path prompt o true)
      = {| chunks := ["Hello" ++ Str.LF; "world" ++ Str.LF];
           errors_logged := [] |}).
Proof.
  intros Hp Hl. unfold run_llama_generation. rewrite Hp.
  rewrite (stream_lines_all true lines [] [] Hl). cbn [app snd chunks].
  split; [reflexivity|].
  intros -> ->. reflexivity.
Qed.

(** ** The poll loop over longer runs *)

Lemma poll_loop_app_eq prompt stream ticks1 ticks2 c :
  poll_loop prompt stream (ticks1 ++ ticks2) c
  = match poll_loop prompt stream ticks1 c with
    | Polling c1 => poll_loop prompt stream ticks2 c1
    | Finished c1 rest => Finished c1 (rest ++ ticks2)
    end.
Proof.
  revert c. induction ticks1 as [|t ticks1 IH]; intros c; [reflexivity|].
  cbn [app poll_loop]. destruct (got t) as [line|].
  - destruct (String.eqb (Str.strip line) (Str.strip prompt)); [apply IH|].
    destruct (String.eqb line "").
    + destruct (2 <? empty_line_count (count_blank c))%nat; [reflexivity|].
      destruct (30000 <? elapsed t)%Z; [reflexivity | apply IH].
    + destruct (30000 <? elapsed t)%Z; [reflexivity | apply IH].
  - destruct (negb (Str.is_nil (response_lines c)) && (2000 <? elapsed t)%Z);
      [reflexivity | apply IH].
Qed.

Lemma kept_lines_line prompt t ticks line :
  got t = Line line ->
  kept_lines prompt (t :: ticks)
  = if kept prompt line then line :: kept_lines prompt ticks
    else kept_lines prompt ticks.
Proof.
  intros H. unfold kept_lines, queue_lines. cbn [flat_map]. rewrite H.
  reflexivity.
Qed.

Lemma kept_lines_empty_poll prompt t ticks :
  got t = QueueEmpty -> kept_lines prompt (t :: ticks) = kept_lines prompt ticks.
Proof.
  intros H. unfold kept_lines, queue_lines. cbn [flat_map]. now rewrite H.
Qed.

Lemma kept_blank prompt : kept prompt "" = false.
Proof. unfold kept. now rewrite andb_false_r. Qed.

(** [collected prompt stream c c' consumed]: from the locals [c], the
    loop reached [c'] by consuming [consumed]. *)
Lemma collected_step prompt (stream : bool) c c1 c' t consumed :
  response_lines c1
  = (response_lines c ++ kept_lines prompt [t])%list ->
  yielded c1
  = (yielded c ++ if stream then map line_chunk (kept_lines prompt [t])
                  else [])%list ->
  response_lines c'
  = (response_lines c1 ++ kept_lines prompt consumed)%list ->
  yielded c'
  = (yielded c1 ++ if stream then map line_chunk (kept_lines prompt consumed)
                   else [])%list ->
  response_lines c'
  = (response_lines c ++ kept_lines prompt (t :: consumed))%list
  /\ yielded c'
     = (yielded c ++ if stream then map line_chunk (kept_lines prompt (t :: consumed))
                     else [])%list.
Proof.
  intros R1 Y1 R2 Y2. rewrite R2, Y2, R1, Y1.
  assert (E : kept_lines prompt (t :: consumed)
              = (kept_lines prompt [t] ++ kept_lines prompt consumed)%list).
  { unfold kept_lines, queue_lines. cbn [flat_map]. rewrite app_nil_r.
    apply filter_app. }
  rewrite E, <- !app_assoc. split; [reflexivity|].
  destruct stream; [|reflexivity]. now rewrite map_app.
Qed.

(** What the loop has collected, in terms of the ticks it consumed. *)
Lemma poll_loop_collects prompt stream ticks c :
  exists consumed,
    ticks = (consumed ++ outcome_rest (poll_loop prompt stream ticks c))%list
    /\ response_lines (outcome_state (poll_loop prompt stream ticks c))
       = (response_lines c ++ kept_lines prompt consumed)%list
    /\ yielded (outcome_state (poll_loop prompt stream ticks c))
       = (yielded c ++ if stream then map line_chunk (kept_lines prompt consumed)
                       else [])%list.
Proof.
  revert c. induction ticks as [|t ticks IH]; intros c.
  - exists []. cbn. rewrite !app_nil_r. destruct stream; now rewrite ?app_nil_r.
  - assert (One : forall c1,
               response_lines c1
               = (response_lines c ++ kept_lines prompt [t])%list ->
               yielded c1
               = (yielded c ++ if stream then map line_chunk (kept_lines prompt [t])
                               else [])%list ->
               (exists consumed,
                   t :: ticks = (consumed ++ ticks)%list
                   /\ response_lines c1
                      = (response_lines c ++ kept_lines prompt consumed)%list
                   /\ yielded c1
                      = (yielded c
                         ++ if stream then map line_chunk (kept_lines prompt consumed)
                            else [])%list)
               /\ (exists consumed,
                      t :: ticks
                      = (consumed
                         ++ outcome_rest (poll_loop prompt stream ticks c1))%list
                      /\ response_lines
                           (outcome_state (poll_loop prompt stream ticks c1))
                         = (response_lines c ++ kept_lines prompt consumed)%list
                      /\ yielded
                           (outcome_state (poll_loop prompt stream ticks c1))
                         = (yielded c
                            ++ if stream
                               then map line_chunk (kept_lines prompt consumed)
                               else [])%list)).
    { intros c1 R1 Y1. split.
      - exists [t]. auto.
      - destruct (IH c1) as (consumed & H1 & H2 & H3).
        exists (t :: consumed). split; [cbn [app]; now rewrite <- H1|].
        now apply (collected_step prompt stream c c1). }
    cbn [poll_loop]. destruct (got t) as [line|] eqn:Hg.
    + destruct (String.eqb (Str.strip line) (Str.strip prompt)) eqn:He.
      * apply One.
        -- rewrite (kept_lines_line _ _ _ _ Hg). unfold kept. rewrite He.
           cbn. now rewrite app_nil_r.
        -- rewrite (kept_lines_line _ _ _ _ Hg). unfold kept. rewrite He.
           cbn. destruct stream; now rewrite app_nil_r.
      * destruct (String.eqb_spec line "") as [->|Hne].
        -- assert (K : kept_lines prompt [t] = [])
             by (rewrite (kept_lines_line _ _ _ _ Hg), kept_blank; reflexivity).
           destruct (One (count_blank c)) as [Stop Go].
           { rewrite K. cbn. now rewrite app_nil_r. }
           { rewrite K. cbn. destruct stream; now rewrite app_nil_r. }
           destruct (2 <? empty_line_count (count_blank c))%nat; [exact Stop|].
           destruct (30000 <? elapsed t)%Z; [exact Stop | exact Go].
        -- assert (K : kept_lines prompt [t] = [line]).
           { rewrite (kept_lines_line _ _ _ _ Hg). unfold kept. rewrite He.
             destruct (String.eqb_spec line ""); [congruence | reflexivity]. }
           destruct (One (collect_line stream line c)) as [Stop Go].
           { rewrite K. reflexivity. }
           { rewrite K. cbn. destruct stream; [reflexivity|].
             now rewrite app_nil_r. }
           destruct (30000 <? elapsed t)%Z; [exact Stop | exact Go].
    + assert (K : kept_lines prompt [t] = [])
        by (now rewrite (kept_lines_empty_poll _ _ _ Hg)).
      destruct (One c) as [Stop Go].
      { rewrite K. now rewrite app_nil_r. }
      { rewrite K. cbn. destruct stream; now rewrite app_nil_r. }
      destruct (negb (Str.is_nil (response_lines c)) && (2000 <? elapsed t)%Z);
        [exact Stop | exact Go].
Qed.

Lemma poll_loop_same_progress prompt st1 st2 ticks c1 c2 :
  same_progress c1 c2 ->
  match poll_loop prompt st1 ticks c1, poll_loop prompt st2 ticks c2 with
  | Finished a r, Finished b r' => r = r' /\ same_progress a b
  | Polling a, Polling b => same_progress a b
  | _, _ => False
  end.
Proof.
  revert c1 c2. induction ticks as [|t ticks IH]; intros c1 c2 [HR HC].
  - cbn. now split.
  - cbn [poll_loop]. destruct (got t) as [line|].
    + destruct (String.eqb (Str.strip line) (Str.strip prompt));
        [apply IH; now split|].
      destruct (String.eqb line "").
      * assert (S : same_progress (count_blank c1) (count_blank c2))
          by (split; cbn; congruence).
        cbn [count_blank empty_line_count]. rewrite HC.
        destruct (2 <? empty_line_count c2 + 1)%nat; [now split|].
        destruct (30000 <? elapsed t)%Z; [now split | now apply IH].
      * assert (S : same_progress (collect_line st1 line c1)
                                  (collect_line st2 line c2))
          by (split; cbn; congruence).
        destruct (30000 <? elapsed t)%Z; [now split | now apply IH].
    + rewrite HR.
      destruct (negb (Str.is_nil (response_lines c2)) && (2000 <? elapsed t)%Z);
        [now split | apply IH; now split].
Qed.

(** X1. The loop composes over runs of ticks: on a longer run it goes
    on from where it was on the first part, and once it has finished it
    reads nothing more. So the consumer of the generator never sees a
    chunk taken back: the chunks over a longer run extend those over the
    first part, and a generator that is exhausted stays as it is. *)
Theorem generate_never_retracts (prompt : string) (stream : bool)
  (ticks more : list tick) :
  poll_loop prompt stream (ticks ++ more) start_collect
  = match poll_loop prompt stream ticks start_collect with
    | Polling c => poll_loop prompt stream more c
    | Finished c rest => Finished c (rest ++ more)
    end
  /\ (exists later,
         chunks_of (generate_chunks prompt stream (ticks ++ more))
         = (chunks_of (generate_chunks prompt stream ticks) ++ later)%list)
  /\ (forall cs,
         generate_chunks prompt stream ticks = Exhausted cs ->
         generate_chunks prompt stream (ticks ++ more) = Exhausted cs).
Proof.
  split; [apply poll_loop_app_eq|].
  unfold generate_chunks. rewrite poll_loop_app_eq.
  destruct (poll_loop prompt stream ticks start_collect) as [c rest|c].
  - split; [exists []; now rewrite app_nil_r | auto].
  - split; [|discriminate].
    destruct (poll_loop_collects prompt stream more c) as (consumed & _ & _ & HY).
    destruct (poll_loop prompt stream more c) as [c' rest|c']; cbn in HY |- *.
    + destruct stream.
      * eexists. exact HY.
      * rewrite HY, app_nil_r. eexists. reflexivity.
    + eexists. exact HY.
Qed.

(** X2. The response is exactly the lines read from the queue that are
    neither blank nor the echo of the prompt, in arrival order, up to the
    tick where the loop stopped; in streaming mode the chunks yielded are
    those lines, each closed by a line break, and otherwise nothing is
    yielded inside the loop. *)
Theorem response_is_the_kept_lines (prompt : string) (stream : bool)
  (ticks : list tick) :
  let o := poll_loop prompt stream ticks start_collect in
  exists consumed,
    ticks = (consumed ++ outcome_rest o)%list
    /\ response_lines (outcome_state o) = kept_lines prompt consumed
    /\ yielded (outcome_state o)
       = (if stream then map line_chunk (kept_lines prompt consumed) else [])
    /\ (forall line,
           In line (response_lines (outcome_state o)) ->
           line <> "" /\ Str.strip line <> Str.strip prompt
           /\ In line (queue_lines ticks)).
Proof.
  intros o.
  destruct (poll_loop_collects prompt stream ticks start_collect)
    as (consumed & H1 & H2 & H3).
  fold o in H1, H2, H3. cbn in H2, H3.
  exists consumed. repeat split; auto.
  - rewrite H2 in H. apply filter_In in H as [_ H]. unfold kept in H.
    apply andb_true_iff in H as [_ H]. intros ->. discriminate.
  - rewrite H2 in H. apply filter_In in H as [_ H]. unfold kept in H.
    apply andb_true_iff in H as [H _]. intros E. rewrite E in H.
    now rewrite String.eqb_refl in H.
  - rewrite H2 in H. apply filter_In in H as [H _]. rewrite H1.
    unfold queue_lines in *. rewrite flat_map_app. apply in_or_app. now left.
Qed.

(** X3. Streaming and non-streaming detect the end of the response at
    the same tick and collect the same lines: what streaming yields line
    by line, each with its line break, the other mode yields once, joined
    by line breaks, after the loop; while the loop is still polling the
    non-streaming generator has yielded nothing. *)
Theorem streaming_and_whole_agree (prompt : string) (ticks : list tick) :
  exists lines,
    (generate_chunks prompt true ticks = Exhausted (map line_chunk lines)
     /\ generate_chunks prompt false ticks = Exhausted [Str.join Str.LF lines])
    \/ (generate_chunks prompt true ticks = Blocked (map line_chunk lines)
        /\ generate_chunks prompt false ticks = Blocked []).
Proof.
  pose proof (poll_loop_same_progress prompt true false ticks
                start_collect start_collect (conj eq_refl eq_refl)) as S.
  destruct (poll_loop_collects prompt true ticks start_collect)
    as (k1 & _ & R1 & Y1).
  destruct (poll_loop_collects prompt false ticks start_collect)
    as (k2 & _ & R2 & Y2).
  unfold generate_chunks.
  destruct (poll_loop prompt true ticks start_collect) as [a r|a];
    destruct (poll_loop prompt false ticks start_collect) as [b r'|b];
    try contradiction; cbn in R1, Y1, R2, Y2.
  - destruct S as [_ [S _]]. exists (response_lines a). left.
    rewrite Y1, Y2, <- R1, <- S. auto.
  - destruct S as [S _]. exists (response_lines a). right.
    rewrite Y1, Y2, <- R1. auto.
Qed.

(** X4. The idle-gap rule does end the response: once a line has been
    collected, the loop is over no later than the first empty poll that
    reads the clock more than two seconds after the start. *)
Theorem idle_gap_ends_response (prompt : string) (stream : bool)
  (before after : list tick) (t : tick) :
  kept_lines prompt before <> [] ->
  got t = QueueEmpty ->
  (2000 < elapsed t)%Z ->
  exists c unread,
    poll_loop prompt stream (before ++ t :: after) start_collect
    = Finished c (unread ++ after).
Proof.
  intros Hk Hg Ht. rewrite poll_loop_app_eq.
  destruct (poll_loop_collects prompt stream before start_collect)
    as (consumed & H1 & H2 & _).
  destruct (poll_loop prompt stream before start_collect) as [c rest|c].
  - exists c, (rest ++ [t])%list. now rewrite <- app_assoc.
  - cbn in H1, H2. rewrite app_nil_r in H1. subst consumed.
    exists c, []. cbn [poll_loop app]. rewrite Hg, H2.
    destruct (kept_lines prompt before); [congruence|].
    cbn. apply Z.ltb_lt in Ht. now rewrite Ht.
Qed.

(** X5. The 30-second budget does end the response when lines keep
    coming: the loop is over no later than the first line, other than an
    echo of the prompt, that is read more than thirty seconds after the
    start. *)
Theorem budget_ends_response_on_a_line (prompt : string) (stream : bool)
  (before after : list tick) (t : tick) (line : string) (c0 : collect) :
  got t = Line line ->
  Str.strip line <> Str.strip prompt ->
  (30000 < elapsed t)%Z ->
  exists c unread,
    poll_loop prompt stream (before ++ t :: after) c0
    = Finished c (unread ++ after).
Proof.
  intros Hg He Ht. rewrite poll_loop_app_eq.
  destruct (poll_loop prompt stream before c0) as [c rest|c].
  - exists c, (rest ++ [t])%list. now rewrite <- app_assoc.
  - cbn [poll_loop]. rewrite Hg.
    destruct (String.eqb_spec (Str.strip line) (Str.strip prompt));
      [congruence|].
    apply Z.ltb_lt in Ht. rewrite Ht.
    destruct (String.eqb line "").
    + exists (count_blank c), [].
      now destruct (2 <? empty_line_count (count_blank c))%nat.
    + now exists (collect_line stream line c), [].
Qed.

(** X6. Echoes of the prompt do not reach the 30-second test either:
    while every tick is an empty poll or a line equal to the prompt after
    trimming, and nothing has been collected, the loop keeps polling and
    yields nothing, whatever the clock reads. *)
Theorem echo_and_silence_never_end (prompt : string) (stream : bool)
  (ticks : list tick) :
  Forall (idle_or_echo prompt) ticks ->
  poll_loop prompt stream ticks start_collect = Polling start_collect
  /\ generate_chunks prompt stream ticks = Blocked [].
Proof.
  intros H.
  assert (P : poll_loop prompt stream ticks start_collect
              = Polling start_collect).
  { induction H as [|t ticks Ht _ IH]; [reflexivity|].
    cbn [poll_loop]. unfold idle_or_echo in Ht.
    destruct (got t) as [line|].
    - rewrite Ht, String.eqb_refl. exact IH.
    - cbn. exact IH. }
  split; [exact P|]. unfold generate_chunks. now rewrite P.
Qed.

(** ** The session directory over several requests *)

Lemma dict_set_absent {V : Type} (d : pydict V) k (v : V) :
  dict_mem k d = false -> dict_set d k v = (d ++ [(k, v)])%list.
Proof.
  unfold dict_mem. induction d as [|[k0 v0] d IH]; cbn; [reflexivity|].
  destruct (String.eqb k k0); [discriminate|].
  intros H. now rewrite IH.
Qed.

Lemma scan_models_twice v s : scan_models v (scan_models v s) = scan_models v s.
Proof.
  destruct (path_exists (disk s) MODELS_DIR) eqn:E.
  - rewrite (scan_models_disk_present v s E).
    rewrite scan_models_disk_present by exact E. reflexivity.
  - rewrite (scan_models_disk_absent v s E).
    rewrite scan_models_disk_present by (cbn; apply mkdir_exists).
    cbn. unfold glob_gguf. rewrite (mkdir_absent_scandir _ E). reflexivity.
Qed.

Lemma refreshed_twice v s : refreshed v (refreshed v s) = refreshed v s.
Proof.
  unfold refreshed at 2 3.
  destruct (dict_is_empty (MODEL_REGISTRY s)) eqn:E.
  - unfold refreshed.
    destruct (dict_is_empty (MODEL_REGISTRY (scan_models v s)));
      [apply scan_models_twice | reflexivity].
  - unfold refreshed. now rewrite E.
Qed.

Lemma refreshed_set_sessions v s a :
  refreshed v (set_sessions s a) = set_sessions (refreshed v s) a.
Proof.
  unfold refreshed, scan_models. cbn.
  destruct (dict_is_empty (MODEL_REGISTRY s)); [|reflexivity].
  destruct (path_exists (disk s) MODELS_DIR); reflexivity.
Qed.

Lemma refreshed_log_popen v s cmd :
  refreshed v (log_popen s cmd) = log_popen (refreshed v s) cmd.
Proof.
  unfold refreshed, scan_models. cbn.
  destruct (dict_is_empty (MODEL_REGISTRY s)); [|reflexivity].
  destruct (path_exists (disk s) MODELS_DIR); reflexivity.
Qed.

Lemma refreshed_keeps_sessions v s :
  ACTIVE_SESSIONS (refreshed v s) = ACTIVE_SESSIONS s
  /\ popen_calls (refreshed v s) = popen_calls s.
Proof.
  unfold refreshed.
  destruct (dict_is_empty (MODEL_REGISTRY s));
    [apply scan_models_keeps_sessions | auto].
Qed.

Lemma get_model_path_eq v s model_name :
  get_model_path v s model_name
  = (refreshed v s, first_success (six_rules (refreshed v s) model_name)).
Proof.
  rewrite (surjective_pairing (get_model_path v s model_name)).
  now rewrite get_model_path_refreshed, get_model_path_first_success.
Qed.

(** A lookup on the state that a lookup left, with any session table and
    any list of children, changes nothing and answers the same. *)
Lemma get_model_path_again v s model_name a cmds :
  get_model_path v
    (set_sessions (fold_left log_popen cmds (refreshed v s)) a) model_name
  = (set_sessions (fold_left log_popen cmds (refreshed v s)) a,
     snd (get_model_path v s model_name)).
Proof.
  assert (E : forall s0, refreshed v (fold_left log_popen cmds s0)
                         = fold_left log_popen cmds (refreshed v s0)).
  { induction cmds as [|cmd cmds IH]; intros s0; [reflexivity|].
    cbn [fold_left]. now rewrite IH, refreshed_log_popen. }
  assert (F : forall s0,
             disk (fold_left log_popen cmds s0) = disk s0
             /\ MODEL_REGISTRY (fold_left log_popen cmds s0) = MODEL_REGISTRY s0).
  { clear E. induction cmds as [|cmd cmds IH]; intros s0; [now split|].
    cbn [fold_left]. destruct (IH (log_popen s0 cmd)) as [-> ->]. now split. }
  rewrite get_model_path_eq, get_model_path_first_success.
  rewrite refreshed_set_sessions, E, refreshed_twice. f_equal.
  unfold six_rules. cbn [set_sessions MODEL_REGISTRY disk].
  destruct (F (refreshed v s)) as [-> ->]. reflexivity.
Qed.

Lemma get_or_create_session_eq s model_name :
  get_or_create_session s model_name
  = let s0 := refreshed gpu_bridge s in
    let found := snd (get_model_path gpu_bridge s model_name) in
    if negb (truthy found) then Return (s0, None)
    else if negb (dict_mem model_name (ACTIVE_SESSIONS s)) then
           let path := match found with Some p => p | None => "" end in
           match popen (session_cmd (new_session path)) with
           | PopenRaises e => Raise e
           | Started _ _ _ =>
               Return
                 (set_sessions
                    (log_popen s0 (session_cmd (new_session path)))
                    (ACTIVE_SESSIONS s
                     ++ [(model_name,
                          started_session path
                            (List.length (popen_calls s)))])%list,
                  Some (started_session path (List.length (popen_calls s))))
           end
         else Return (s0, dict_get (ACTIVE_SESSIONS s) model_name).
Proof.
  unfold get_or_create_session.
  rewrite (get_model_path_eq gpu_bridge s model_name). cbn [snd].
  destruct (refreshed_keeps_sessions gpu_bridge s) as [Ha Hp].
  cbv zeta. rewrite Ha.
  destruct (negb (truthy _)); [reflexivity|].
  destruct (dict_mem model_name (ACTIVE_SESSIONS s)) eqn:M; cbn [negb];
    [reflexivity|].
  unfold start. cbn [new_session process].
  destruct (popen _); [reflexivity|].
  cbn [set_sessions log_popen ACTIVE_SESSIONS popen_calls
       model_path gpu_layers disk MODEL_REGISTRY].
  rewrite dict_get_set_same, Ha, Hp, (dict_set_absent _ _ _ M).
  reflexivity.
Qed.

Lemma server_eta s :
  set_sessions (fold_left log_popen [] s) (ACTIVE_SESSIONS s) = s.
Proof. now destruct s. Qed.

Lemma get_or_create_session_existing s model_name session :
  truthy (snd (get_model_path gpu_bridge s model_name)) = true ->
  dict_get (ACTIVE_SESSIONS s) model_name = Some session ->
  get_or_create_session s model_name
  = Return (refreshed gpu_bridge s, Some session).
Proof.
  intros T G. rewrite get_or_create_session_eq. cbv zeta. rewrite T.
  unfold dict_mem. rewrite G. reflexivity.
Qed.

Lemma get_or_create_session_new s model_name path out rc err :
  snd (get_model_path gpu_bridge s model_name) = Some path ->
  path <> "" ->
  dict_mem model_name (ACTIVE_SESSIONS s) = false ->
  popen (session_cmd (new_session path)) = Started out rc err ->
  get_or_create_session s model_name
  = Return
      (set_sessions
         (fold_left log_popen [session_cmd (new_session path)]
            (refreshed gpu_bridge s))
         (dict_set (ACTIVE_SESSIONS s) model_name
            (started_session path (List.length (popen_calls s)))),
       Some (started_session path (List.length (popen_calls s)))).
Proof.
  intros F Hp M P. rewrite get_or_create_session_eq. cbv zeta.
  rewrite F, M, P, (dict_set_absent _ _ _ M).
  destruct path; [congruence | reflexivity].
Qed.

(** The states that [get_or_create_session] can return. *)
Lemma get_or_create_session_returns s model_name s1 r :
  get_or_create_session s model_name = Return (s1, r) ->
  (s1 = refreshed gpu_bridge s
   /\ (r = None \/ r = dict_get (ACTIVE_SESSIONS s) model_name
                   /\ dict_mem model_name (ACTIVE_SESSIONS s) = true
                   /\ truthy (snd (get_model_path gpu_bridge s model_name)) = true))
  \/ (exists path,
         dict_mem model_name (ACTIVE_SESSIONS s) = false
         /\ truthy (snd (get_model_path gpu_bridge s model_name)) = true
         /\ s1 = set_sessions
                   (fold_left log_popen [session_cmd (new_session path)]
                      (refreshed gpu_bridge s))
                   (dict_set (ACTIVE_SESSIONS s) model_name
                      (started_session path (List.length (popen_calls s))))
         /\ r = Some (started_session path (List.length (popen_calls s)))).
Proof.
  rewrite get_or_create_session_eq. cbv zeta.
  destruct (truthy _) eqn:T; cbn [negb].
  - destruct (dict_mem model_name (ACTIVE_SESSIONS s)) eqn:M; cbn [negb].
    + intros [= <- <-]. left. auto.
    + destruct (popen _); [discriminate|]. intros [= <- <-]. right.
      eexists. rewrite (dict_set_absent _ _ _ M). repeat split; reflexivity.
  - intros [= <- <-]. left. auto.
Qed.

(** X7. Sessions are kept per requested name: once a request for a name
    has returned a session, the next request for that name returns the
    same session and leaves the server as it is; no further child is
    started. *)
Theorem session_is_reused (s s1 : server) (model_name : string)
  (session : LlamaCppSession) :
  get_or_create_session s model_name = Return (s1, Some session) ->
  get_or_create_session s1 model_name = Return (s1, Some session)
  /\ dict_get (ACTIVE_SESSIONS s1) model_name = Some session.
Proof.
  intros H. destruct (get_or_create_session_returns _ _ _ _ H)
    as [[-> [E|(E & M & T)]]|(path & M & T & -> & E)]; [discriminate| |].
  - assert (G : dict_get (ACTIVE_SESSIONS (refreshed gpu_bridge s)) model_name
                = Some session).
    { destruct (refreshed_keeps_sessions gpu_bridge s) as [-> _]. auto. }
    split; [|exact G].
    rewrite (get_or_create_session_existing _ _ session); [|  |exact G].
    + now rewrite refreshed_twice.
    + rewrite <- (server_eta (refreshed gpu_bridge s)).
      now rewrite get_model_path_again.
  - injection E as ->.
    assert (G : dict_get (dict_set (ACTIVE_SESSIONS s) model_name
                            (started_session path (List.length (popen_calls s))))
                         model_name
                = Some (started_session path (List.length (popen_calls s))))
      by apply dict_get_set_same.
    split; [|exact G].
    rewrite (get_or_create_session_existing _ _
               (started_session path (List.length (popen_calls s))));
      [| |exact G].
    + f_equal. f_equal.
      pose proof (get_model_path_again gpu_bridge s model_name
                    (dict_set (ACTIVE_SESSIONS s) model_name
                       (started_session path (List.length (popen_calls s))))
                    [session_cmd (new_session path)]) as A.
      rewrite get_model_path_eq in A. now injection A.
    + now rewrite get_model_path_again.
Qed.

(** X8. The table is keyed by the name as requested, not by the file it
    resolves to: two different names that resolve to the same model file
    get a child process each, started with the same command line. *)
Theorem two_aliases_two_children (s : server) (name1 name2 path : string)
  (out : list read_event) (rc : Z) (err : string) :
  name1 <> name2 ->
  dict_mem name1 (ACTIVE_SESSIONS s) = false ->
  dict_mem name2 (ACTIVE_SESSIONS s) = false ->
  snd (get_model_path gpu_bridge s name1) = Some path ->
  snd (get_model_path gpu_bridge s name2) = Some path ->
  path <> "" ->
  popen (session_cmd (new_session path)) = Started out rc err ->
  exists s1 s2,
    get_or_create_session s name1
    = Return (s1, Some (started_session path (List.length (popen_calls s))))
    /\ get_or_create_session s1 name2
       = Return (s2, Some (started_session path
                             (S (List.length (popen_calls s)))))
    /\ popen_calls s2
       = (popen_calls s
          ++ [session_cmd (new_session path); session_cmd (new_session path)])%list.
Proof.
  intros Hne M1 M2 F1 F2 Hp P.
  eexists. eexists. split; [|split].
  - apply (get_or_create_session_new s name1 path out rc err); assumption.
  - rewrite (get_or_create_session_new _ name2 path out rc err); try assumption.
    + cbn [set_sessions fold_left log_popen popen_calls].
      destruct (refreshed_keeps_sessions gpu_bridge s) as [_ ->].
      rewrite length_app, Nat.add_1_r. reflexivity.
    + now rewrite get_model_path_again.
    + cbn [set_sessions ACTIVE_SESSIONS]. unfold dict_mem.
      rewrite dict_get_set_other by congruence.
      fold (dict_mem name2 (ACTIVE_SESSIONS s)). exact M2.
  - cbn [set_sessions fold_left log_popen popen_calls].
    rewrite (proj2 (refreshed_keeps_sessions gpu_bridge _)).
    cbn [set_sessions fold_left log_popen popen_calls].
    rewrite (proj2 (refreshed_keeps_sessions gpu_bridge s)).
    now rewrite <- app_assoc.
Qed.

Lemma dict_values_set_absent {V : Type} (d : pydict V) k (v : V) :
  dict_mem k d = false ->
  dict_values (dict_set d k v) = (dict_values d ++ [v])%list.
Proof.
  intros M. rewrite (dict_set_absent _ _ _ M). unfold dict_values.
  now rewrite map_app.
Qed.

Lemma stopped_children (sessions : list LlamaCppSession) children :
  map process sessions = map Some children ->
  flat_map (fun session => snd (stop session)) sessions = children.
Proof.
  revert children. induction sessions as [|x sessions IH];
    intros [|n children]; cbn; try discriminate; [reflexivity|].
  intros [= Hx Hrest]. unfold stop. rewrite Hx. cbn. f_equal. now apply IH.
Qed.

(** X9. The session table keeps track of every child: if the children of
    the sessions in the table are the children started so far, in order,
    this is still so after any request that returns, whether it found no
    model, found a session, or started one. *)
Theorem sessions_stay_tracked (s s1 : server) (model_name : string)
  (r : option LlamaCppSession) :
  sessions_tracked s ->
  get_or_create_session s model_name = Return (s1, r) ->
  sessions_tracked s1.
Proof.
  unfold sessions_tracked. intros Inv H.
  destruct (get_or_create_session_returns _ _ _ _ H)
    as [[-> _]|(path & M & _ & -> & _)].
  - destruct (refreshed_keeps_sessions gpu_bridge s) as [-> ->]. exact Inv.
  - cbn [set_sessions fold_left log_popen ACTIVE_SESSIONS popen_calls].
    rewrite (proj2 (refreshed_keeps_sessions gpu_bridge s)).
    rewrite (dict_values_set_absent _ _ _ M), map_app, Inv, length_app.
    cbn [List.length map]. rewrite Nat.add_1_r, seq_S, map_app. reflexivity.
Qed.

(** X10. [cleanup] leaks no child: when the table tracks the children
    started so far, it terminates each of them exactly once, in the order
    they were started, and leaves the table empty; a second [cleanup]
    terminates nothing. *)
Theorem cleanup_stops_every_child (s : server) :
  sessions_tracked s ->
  snd (cleanup s) = List.seq 0 (List.length (popen_calls s))
  /\ ACTIVE_SESSIONS (fst (cleanup s)) = []
  /\ snd (cleanup (fst (cleanup s))) = [].
Proof.
  intros Inv. unfold cleanup. cbn. split; [|auto].
  now apply stopped_children.
Qed.

(** ** The registry as a mapping *)

Lemma dict_mem_keys {V : Type} (d : pydict V) k :
  dict_mem k d = true <-> In k (dict_keys d).
Proof.
  unfold dict_mem, dict_keys. induction d as [|[k0 v0] d IH]; cbn.
  - split; [discriminate | intros []].
  - destruct (String.eqb_spec k k0) as [->|Hne].
    + split; auto.
    + rewrite IH. split; [auto | intros [E|H]; [congruence | exact H]].
Qed.

Lemma dict_keys_set {V : Type} (d : pydict V) k (v : V) :
  dict_keys (dict_set d k v)
  = if dict_mem k d then dict_keys d else (dict_keys d ++ [k])%list.
Proof.
  unfold dict_mem, dict_keys. induction d as [|[k0 v0] d IH]; cbn; [reflexivity|].
  destruct (String.eqb_spec k k0) as [->|Hne]; cbn; [reflexivity|].
  rewrite IH. now destruct (dict_get d k).
Qed.

Lemma dict_set_keys_nodup {V : Type} (d : pydict V) k (v : V) :
  NoDup (dict_keys d) -> NoDup (dict_keys (dict_set d k v)).
Proof.
  intros N. rewrite dict_keys_set.
  destruct (dict_mem k d) eqn:M; [exact N|].
  apply NoDup_app; [exact N | repeat constructor; intros [] |].
  intros x Hx [<-|[]]. apply dict_mem_keys in Hx. congruence.
Qed.

Lemma writes_keys_nodup K val st (d : pydict string) :
  writes K val st -> NoDup (dict_keys d) -> NoDup (dict_keys (st d)).
Proof.
  intros W. revert d. induction W; intros d N; auto.
  - now apply dict_set_keys_nodup.
  - unfold seq. auto.
  - unfold when. destruct c; auto.
  - unfold ifelse. destruct c; auto.
Qed.

Lemma scan_loop_keys_nodup v files (d : pydict string) :
  NoDup (dict_keys d) -> NoDup (dict_keys (scan_loop v files d)).
Proof.
  unfold scan_loop. revert d.
  induction files as [|g files IH]; cbn; intros d H; [exact H|].
  apply IH. now apply (writes_keys_nodup _ _ _ _ (scan_file_writes v g)).
Qed.

Lemma dict_get_of_In {V : Type} (d : pydict V) k (v : V) :
  NoDup (dict_keys d) -> In (k, v) d -> dict_get d k = Some v.
Proof.
  unfold dict_keys. induction d as [|[k0 v0] d IH]; cbn; [intros _ []|].
  intros N [E|H].
  - injection E as -> ->. now rewrite String.eqb_refl.
  - inversion N as [|? ? Hn N']; subst.
    destruct (String.eqb_spec k k0) as [->|_]; [|auto].
    destruct Hn. apply (in_map fst) in H. exact H.
Qed.

(** X11. After a scan every alias maps to exactly one path: no key
    occurs twice in the registry, looking a key up gives the one entry
    it has, and every entry maps an alias of a visited model file to the
    path of that file in the model directory. *)
Theorem scanned_registry_is_a_mapping (v : script) (s : server) :
  let reg := MODEL_REGISTRY (scan_models v s) in
  NoDup (dict_keys reg)
  /\ (forall k p, In (k, p) reg <-> dict_get reg k = Some p)
  /\ (forall k p,
         In (k, p) reg ->
         exists g, In g (scanned (disk s)) /\ alias_key g k
                   /\ p = MODELS_DIR ++ "/" ++ g).
Proof.
  intros reg.
  assert (N : NoDup (dict_keys reg)).
  { subst reg. rewrite scan_models_registry.
    apply scan_loop_keys_nodup. constructor. }
  split; [exact N|]. split.
  - intros k p. split; [now apply dict_get_of_In | apply dict_get_In].
  - intros k p H. apply (scan_models_entries v s (k, p) H).
Qed.

(** ** What resolution can return *)

(** X12. Resolution never makes a path up: a path it returns is the
    value of some entry of the registry it worked on, or a path that
    exists on the disk. *)
Theorem resolved_path_is_known (v : script) (s : server)
  (model_name path : string) :
  snd (get_model_path v s model_name) = Some path ->
  (exists alias, In (alias, path) (MODEL_REGISTRY (refreshed v s)))
  \/ path_exists (disk (refreshed v s)) path = true.
Proof.
  rewrite get_model_path_first_success. intros H.
  apply first_success_In in H. generalize dependent (refreshed v s).
  intros s0 Hin.
  assert (Hget : forall k, dict_get (MODEL_REGISTRY s0) k = Some path ->
                           exists alias, In (alias, path) (MODEL_REGISTRY s0)).
  { intros k E. exists k. now apply dict_get_In. }
  unfold six_rules in Hin. cbn [In] in Hin.
  destruct Hin as [E|[E|[E|[E|[E|[E|[]]]]]]].
  - left. now apply (Hget model_name).
  - left. now apply (Hget (Str.lower model_name)).
  - left. unfold rule_transforms in E. apply first_success_In in E. cbn in E.
    repeat (destruct E as [E|E]; [now apply Hget in E|]). destruct E.
  - left. unfold rule_tag in E.
    destruct (Str.contains ":" model_name); [|discriminate].
    apply first_success_In in E. cbn in E.
    repeat (destruct E as [E|E]; [now apply Hget in E|]). destruct E.
  - left. unfold rule_substring in E.
    destruct (find _ (MODEL_REGISTRY s0)) as [[k p]|] eqn:F; [|discriminate].
    injection E as <-. apply find_some in F as [F _]. now exists k.
  - right. unfold rule_file in E. apply first_success_In in E. cbn in E.
    destruct E as [E|[E|[]]].
    + destruct (path_exists _ _) eqn:P; [|discriminate]. cbn in E.
      destruct (String.eqb _ _); [|discriminate]. now injection E as <-.
    + destruct (path_exists _ _) eqn:P; [|discriminate]. now injection E as <-.
Qed.

(** X13. The substring rule makes resolution very permissive: a name
    that occurs inside some registered alias, or that contains one,
    ignoring case, is never not-found. *)
Theorem fragment_of_an_alias_resolves (v : script) (s : server)
  (model_name alias path : string) :
  In (alias, path) (MODEL_REGISTRY (refreshed v s)) ->
  Str.contains (Str.lower model_name) (Str.lower alias)
  || Str.contains (Str.lower alias) (Str.lower model_name) = true ->
  exists found, snd (get_model_path v s model_name) = Some found.
Proof.
  intros Hin Hc.
  destruct (snd (get_model_path v s model_name)) as [p|] eqn:E; [eauto|].
  rewrite get_model_path_first_success in E.
  apply first_success_none in E. unfold six_rules in E.
  rewrite !Forall_cons_iff in E. destruct E as (_ & _ & _ & _ & E & _).
  unfold rule_substring in E.
  destruct (find _ (MODEL_REGISTRY (refreshed v s))) as [kv|] eqn:F;
    [discriminate|].
  pose proof (find_none _ _ F _ Hin) as N. cbn in N. congruence.
Qed.

(** X14. A lookup scans only when the registry is empty. With a
    non-empty registry the directory is not read again, whatever has
    changed on the disk: the lookup leaves the server as it is, and a
    name that one of the five registry rules resolves gets the same
    answer on any disk, also for a file that is gone. *)
Theorem registry_is_not_refreshed_by_lookups (v : script) (s : server)
  (d : FS) (model_name : string) :
  dict_is_empty (MODEL_REGISTRY s) = false ->
  fst (get_model_path v (set_disk s d) model_name) = set_disk s d
  /\ (first_success (firstn 5 (six_rules s model_name)) <> None ->
      snd (get_model_path v (set_disk s d) model_name)
      = snd (get_model_path v s model_name)).
Proof.
  intros Hne.
  assert (R1 : refreshed v (set_disk s d) = set_disk s d)
    by (unfold refreshed; cbn; now rewrite Hne).
  assert (R2 : refreshed v s = s) by (unfold refreshed; now rewrite Hne).
  split; [now rewrite get_model_path_refreshed|].
  rewrite !get_model_path_first_success, R1, R2.
  unfold six_rules. cbn [set_disk MODEL_REGISTRY disk firstn first_success fold_right].
  destruct (rule_exact _ _); [reflexivity|].
  destruct (rule_lowercase _ _); [reflexivity|].
  destruct (rule_transforms _ _); [reflexivity|].
  destruct (rule_tag _ _); [reflexivity|].
  destruct (rule_substring _ _); [reflexivity|]. congruence.
Qed.

(** ** The one-shot runner: errors and modes *)

Lemma stream_lines_prefix (stream : bool) lines rest full_response yielded :
  Forall (fun l => l <> "") lines ->
  stream_lines stream (map Readline lines ++ rest) full_response yielded
  = stream_lines stream rest
      (full_response ++ kept_output lines)%list
      (yielded ++ if stream then map line_chunk (kept_output lines) else [])%list.
Proof.
  intros H. revert full_response yielded.
  induction H as [|l lines Hl _ IH]; intros full_response yielded.
  - cbn. rewrite !app_nil_r. destruct stream; now rewrite ?app_nil_r.
  - destruct l as [|a l]; [congruence|].
    cbn [map app stream_lines]. unfold kept_output. cbn [map filter].
    assert (B : negb (Str.startswith "system_info:" (Str.rstrip (String a l)))
                && negb (Str.startswith "main:" (Str.rstrip (String a l)))
                = negb (is_banner (Str.rstrip (String a l))))
      by (unfold is_banner; now rewrite negb_orb).
    rewrite B. fold (kept_output lines).
    destruct (negb (is_banner (Str.rstrip (String a l)))).
    + rewrite IH. destruct stream; cbn [map]; now rewrite <- !app_assoc.
    + apply IH.
Qed.

(** X15. A read error in the middle of the output: in streaming mode
    the chunks already yielded stay and the error text follows as one
    last chunk; in non-streaming mode the lines collected so far are
    lost, and the error text is the only chunk. In both the child was
    started and no exception leaves the runner. *)
Theorem read_error_keeps_streamed_chunks (s : server)
  (model_path prompt : string) (o : options) (lines : list string)
  (e : string) (rest : list read_event) (returncode : Z) (stderr : string) :
  popen (generation_cmd model_path prompt o)
  = Started (map Readline lines ++ ReadRaises e :: rest) returncode stderr ->
  Forall (fun l => l <> "") lines ->
  chunks (snd (run_llama_generation s model_path prompt o true))
  = (map line_chunk (kept_output lines) ++ [error_chunk e])%list
  /\ chunks (snd (run_llama_generation s model_path prompt o false))
     = [error_chunk e]
  /\ forall stream,
       popen_calls (fst (run_llama_generation s model_path prompt o stream))
       = (popen_calls s ++ [generation_cmd model_path prompt o])%list.
Proof.
  intros Hp Hl. unfold run_llama_generation. rewrite Hp.
  rewrite !(stream_lines_prefix _ lines _ [] [] Hl). cbn [stream_lines app].
  repeat split. intros stream.
  rewrite (stream_lines_prefix _ lines _ [] [] Hl). reflexivity.
Qed.

(** X16. Without read errors both modes of the one-shot runner deliver
    the same kept lines: streaming one chunk per line, non-streaming a
    single chunk, the lines joined by line breaks (an empty chunk when
    nothing was kept). A non-zero exit code adds one logged error and
    changes no chunk. *)
Theorem one_shot_modes_agree (s : server) (model_path prompt : string)
  (o : options) (lines : list string) (returncode : Z) (stderr : string) :
  popen (generation_cmd model_path prompt o)
  = Started (map Readline lines) returncode stderr ->
  Forall (fun l => l <> "") lines ->
  chunks (snd (run_llama_generation s model_path prompt o true))
  = map line_chunk (kept_output lines)
  /\ chunks (snd (run_llama_generation s model_path prompt o false))
     = [Str.join Str.LF (kept_output lines)]
  /\ forall stream,
       errors_logged (snd (run_llama_generation s model_path prompt o stream))
       = if (returncode =? 0)%Z then [] else ["llama.cpp error: " ++ stderr].
Proof.
  intros Hp Hl. unfold run_llama_generation. rewrite Hp.
  rewrite <- (app_nil_r (map Readline lines)).
  rewrite !(stream_lines_prefix _ lines [] [] [] Hl). cbn [stream_lines app].
  repeat split. intros stream.
  rewrite (stream_lines_prefix _ lines [] [] [] Hl). reflexivity.
Qed.

(** X17. In the v2 routes a launch failure is not an error reply: when
    the model resolves and the launch raises, [chat] and [generate]
    answer with a normal body whose content is the error text (followed,
    when streaming, by the final done event), and no child is recorded. *)
Theorem launch_failure_is_a_normal_reply (s : server) (chat_data : chat_request)
  (gen_data : generate_request) (path e : string) :
  (snd (get_model_path gpu_bridge_v2 s (chat_model chat_data)) = Some path ->
   path <> "" ->
   popen (generation_cmd path (chat_prompt (chat_messages chat_data))
            (chat_options chat_data)) = PopenRaises e ->
   chat s chat_data
   = (refreshed gpu_bridge_v2 s,
      if chat_stream chat_data
      then Body "text/event-stream"
             [ {| event_content := error_chunk e; event_done := false |};
               {| event_content := ""; event_done := true |} ]
      else Body "application/json"
             [ {| event_content := error_chunk e; event_done := true |} ]))
  /\ (snd (get_model_path gpu_bridge_v2 s (generate_model gen_data)) = Some path ->
      path <> "" ->
      popen (generation_cmd path (generate_prompt gen_data)
               (generate_options gen_data)) = PopenRaises e ->
      generate_route s gen_data
      = (refreshed gpu_bridge_v2 s,
         if generate_stream gen_data
         then Body "text/event-stream"
                [ {| event_content := error_chunk e; event_done := false |};
                  {| event_content := ""; event_done := true |} ]
         else Body "application/json"
                [ {| event_content := error_chunk e; event_done := true |} ])).
Proof.
  split; intros F Hp P.
  - unfold chat. rewrite get_model_path_eq.
    rewrite get_model_path_first_success in F. rewrite F.
    destruct path as [|a path]; [congruence|]. cbn [truthy negb].
    unfold run_llama_generation. rewrite P.
    destruct (chat_stream chat_data); cbn; now rewrite ?app_nil_r.
  - unfold generate_route. rewrite get_model_path_eq.
    rewrite get_model_path_first_success in F. rewrite F.
    destruct path as [|a path]; [congruence|]. cbn [truthy negb].
    unfold run_llama_generation. rewrite P.
    destruct (generate_stream gen_data); cbn; now rewrite ?app_nil_r.
Qed.

(** ** Listing and showing models *)

Lemma prefer_step (seen : pydict string) name path :
  prefer seen (name, path)
  = if dict_mem path seen then seen else dict_set seen path name.
Proof.
  unfold prefer. destruct (dict_mem path seen) eqn:M; cbn [negb]; [reflexivity|].
  now destruct (Str.contains ":" name).
Qed.

Lemma seen_files_get reg (seen : pydict string) path :
  dict_get (fold_left prefer reg seen) path
  = match dict_get seen path with
    | Some name => Some name
    | None => first_alias reg path
    end.
Proof.
  unfold first_alias. revert seen.
  induction reg as [|[name p] reg IH]; intros seen; cbn [fold_left find].
  - now destruct (dict_get seen path).
  - rewrite IH, prefer_step. cbn [snd].
    destruct (dict_mem p seen) eqn:M.
    + destruct (dict_get seen path) eqn:G; [reflexivity|].
      destruct (String.eqb_spec p path) as [->|_]; [|reflexivity].
      unfold dict_mem in M. now rewrite G in M.
    + destruct (String.eqb_spec p path) as [->|Hne].
      * rewrite dict_get_set_same. apply dict_mem_false in M. now rewrite M.
      * rewrite dict_get_set_other by congruence. reflexivity.
Qed.

Lemma seen_files_keys_nodup reg (seen : pydict string) :
  NoDup (dict_keys seen) -> NoDup (dict_keys (fold_left prefer reg seen)).
Proof.
  revert seen. induction reg as [|[name p] reg IH]; intros seen N; [exact N|].
  cbn [fold_left]. apply IH. rewrite prefer_step.
  destruct (dict_mem p seen); [exact N | now apply dict_set_keys_nodup].
Qed.

Lemma seen_files_first reg path :
  dict_get (seen_files_of reg) path = first_alias reg path.
Proof. unfold seen_files_of. now rewrite seen_files_get. Qed.

(** X18. The name under which [list_models] presents a model file is
    the first alias of the registry, in iteration order, that maps to
    its path: the test for a [:] in the name makes no difference, and a
    tagged alias is preferred only when it comes first. Each path gets
    one name. *)
Theorem preferred_name_is_first_alias (reg : pydict string) (path : string) :
  dict_get (seen_files_of reg) path = first_alias reg path
  /\ NoDup (dict_keys (seen_files_of reg))
  /\ (forall name,
         In (path, name) (seen_files_of reg) -> dict_get reg name <> None).
Proof.
  unfold seen_files_of. split; [|split].
  - now rewrite seen_files_get.
  - apply seen_files_keys_nodup. constructor.
  - intros name H.
    apply (dict_get_of_In _ _ _ (seen_files_keys_nodup reg [] (NoDup_nil _))) in H.
    rewrite seen_files_get in H. cbn in H. unfold first_alias in H.
    destruct (find _ reg) as [[k p]|] eqn:F; [|discriminate].
    injection H as <-. apply find_some in F as [F _].
    clear -F. induction reg as [|[k0 p0] reg IH]; [destruct F|].
    cbn. destruct (String.eqb_spec k k0); [discriminate|].
    destruct F as [E|F]; [congruence | auto].
Qed.

(** X19. [list_models] rescans the directory, lists one entry for
    every path of the fresh registry that exists on the disk, each under
    the first alias of that path, and always ends with the simulated
    embedding model; the names before it are aliases of the registry. *)
Theorem list_models_ends_with_embedding_model (v : script) (s : server) :
  let reg := MODEL_REGISTRY (scan_models v s) in
  fst (list_models v s) = scan_models v s
  /\ exists real,
       snd (list_models v s) = (real ++ [fake_embedding_entry])%list
       /\ (forall m, In m real ->
             exists path,
               path_exists (disk (scan_models v s)) path = true
               /\ first_alias reg path = Some (entry_name m)
               /\ exists alias, In (alias, path) reg)
       /\ (forall path alias,
             In (alias, path) reg ->
             path_exists (disk (scan_models v s)) path = true ->
             exists m, In m real /\ first_alias reg path = Some (entry_name m)).
Proof.
  intros reg. split; [reflexivity|].
  unfold list_models. cbn [snd]. fold reg. eexists. split; [reflexivity|].
  pose proof (seen_files_keys_nodup reg [] (NoDup_nil _)) as N.
  fold (seen_files_of reg) in N. split.
  - intros m Hm. apply in_map_iff in Hm as ([path name] & <- & Hin).
    apply filter_In in Hin as [Hin Hex]. cbn in Hex.
    exists path. split; [exact Hex|].
    apply (dict_get_of_In _ _ _ N) in Hin.
    pose proof (seen_files_first reg path) as E. rewrite E in Hin.
    split; [exact Hin|].
    unfold first_alias in Hin.
    destruct (find _ reg) as [[k p]|] eqn:F; [|discriminate].
    apply find_some in F as [F1 F2]. cbn in F2.
    apply String.eqb_eq in F2. subst p. now exists k.
  - intros path alias Hin Hex.
    assert (F : exists name, first_alias reg path = Some name).
    { unfold first_alias.
      destruct (find _ reg) as [kv|] eqn:F; [cbn; eauto|].
      pose proof (find_none _ _ F _ Hin) as X. cbn in X.
      now rewrite String.eqb_refl in X. }
    destruct F as [name F].
    pose proof (seen_files_first reg path) as E. rewrite F in E.
    apply dict_get_In in E.
    exists (entry_of v (path, name)). split; [|exact F].
    apply in_map, filter_In. split; [exact E | exact Hex].
Qed.

Lemma split_not_nil sep s : Str.split sep s <> [].
Proof.
  destruct s as [|c s]; cbn; [discriminate|].
  destruct (Ascii.eqb c sep); [discriminate|].
  destruct (Str.split sep s); discriminate.
Qed.

Lemma split_app sep a b :
  Str.split sep (a ++ String sep b) = (Str.split sep a ++ Str.split sep b)%list.
Proof.
  induction a as [|c a IH]; cbn.
  - now rewrite Ascii.eqb_refl.
  - destruct (Ascii.eqb c sep); [now rewrite IH|].
    rewrite IH. pose proof (split_not_nil sep a) as N.
    destruct (Str.split sep a); [congruence | reflexivity].
Qed.

Lemma split_no_separator sep s :
  has_char sep s = false -> Str.split sep s = [s].
Proof.
  induction s as [|c s IH]; cbn; [reflexivity|].
  intros H. apply orb_false_iff in H as [H1 H2].
  rewrite H1, (IH H2). reflexivity.
Qed.

Lemma name_in_models_dir f :
  has_char "/" f = false -> f <> "" -> f <> "." ->
  PurePath.name (MODELS_DIR ++ "/" ++ f) = f.
Proof.
  intros Hs H1 H2. unfold PurePath.name, PurePath.parts.
  change (MODELS_DIR ++ "/" ++ f) with (MODELS_DIR ++ String "/" f).
  rewrite split_app, (split_no_separator _ _ Hs), filter_app. cbn [filter].
  destruct (String.eqb_spec f ""); [congruence|].
  destruct (String.eqb_spec f "."); [congruence|].
  cbn. apply last_last.
Qed.

Lemma scanned_filename_resolves v s f :
  In f (scanned (disk s)) ->
  (forall g, In g (scanned (disk s)) -> g <> f ->
             PurePath.stem g <> f /\ Str.lower (PurePath.stem g) <> f) ->
  get_model_path v (scan_models v s) f
  = (scan_models v s, Some (MODELS_DIR ++ "/" ++ f)).
Proof.
  intros Hin Hno.
  assert (Hget : dict_get (MODEL_REGISTRY (scan_models v s)) f
                 = Some (MODELS_DIR ++ "/" ++ f)).
  { rewrite scan_models_registry. apply scan_loop_keeps_filename; auto.
    now apply (scanned_In (disk s)). }
  rewrite get_model_path_eq.
  assert (Href : refreshed v (scan_models v s) = scan_models v s).
  { unfold refreshed.
    destruct (MODEL_REGISTRY (scan_models v s)); [discriminate | reflexivity]. }
  rewrite Href. unfold six_rules, rule_exact. cbn. now rewrite Hget.
Qed.

(** X20. Scanning and then showing a model by its exact file name names
    that file: the reply is a 200 whose model file line is [FROM] the
    file name, provided the name has no [/] (no directory entry has) and
    no other visited file has it as its stem or lowercased stem. *)
Theorem show_model_names_the_file (v : script) (s : server) (f : string) :
  In f (scanned (disk s)) ->
  has_char "/" f = false ->
  (forall g, In g (scanned (disk s)) -> g <> f ->
             PurePath.stem g <> f /\ Str.lower (PurePath.stem g) <> f) ->
  fst (show_model v (scan_models v s) f) = scan_models v s
  /\ status (snd (show_model v (scan_models v s) f)) = 200
  /\ In ("modelfile", "FROM " ++ f)
        (body (snd (show_model v (scan_models v s) f))).
Proof.
  intros Hin Hs Hno. unfold show_model.
  rewrite (scanned_filename_resolves v s f Hin Hno).
  assert (T : truthy (Some (MODELS_DIR ++ "/" ++ f)) = true).
  { pose proof (append_nonempty MODELS_DIR "/" f) as N. cbn [append] in N.
    change (MODELS_DIR ++ "/" ++ f) with (MODELS_DIR ++ String "/" f).
    destruct (MODELS_DIR ++ String "/" f); [congruence | reflexivity]. }
  rewrite T. cbn [negb fst snd status body]. repeat split.
  unfold show_body. right. left.
  assert (Hg : Str.endswith ".gguf" f = true) by now apply (scanned_In (disk s)).
  rewrite name_in_models_dir; auto.
  - now apply endswith_gguf_nonempty.
  - intros ->. discriminate.
Qed.

(** ** The routes of the first bridge *)

Lemma string_app_assoc (a b c : string) : (a ++ b) ++ c = a ++ (b ++ c).
Proof. induction a as [|x a IH]; cbn; [reflexivity | now rewrite IH]. Qed.

Lemma string_app_nil_r (a : string) : a ++ "" = a.
Proof. induction a as [|x a IH]; cbn; [reflexivity | now rewrite IH]. Qed.

Lemma session_chat_prompt_from (messages : list message) (acc : string) :
  fold_left
    (fun prompt msg =>
       if String.eqb (role msg) "system" then
         (content msg ++ Str.LF ++ Str.LF) ++ prompt
       else if String.eqb (role msg) "user" then
         prompt ++ ("User: " ++ content msg ++ Str.LF ++ "Assistant: ")
       else if String.eqb (role msg) "assistant" then
         prompt ++ (content msg ++ Str.LF)
       else prompt)
    messages acc
  = String.concat "" (rev (map front_text (filter is_system messages)))
    ++ acc
    ++ String.concat ""
         (map back_text (filter (fun m => negb (is_system m)) messages)).
Proof.
  assert (C : forall l x, String.concat "" (l ++ [x]) = String.concat "" l ++ x).
  { induction l as [|y l IH]; intros x; [reflexivity|].
    destruct l as [|z l]; [reflexivity|].
    change (String.concat "" ((y :: z :: l) ++ [x]))
      with (y ++ String.concat "" ((z :: l) ++ [x])).
    rewrite IH.
    change (String.concat "" (y :: z :: l))
      with (y ++ String.concat "" (z :: l)).
    now rewrite string_app_assoc. }
  assert (D : forall x l, String.concat "" (x :: l) = x ++ String.concat "" l).
  { intros x [|y l]; cbn; [now rewrite string_app_nil_r | reflexivity]. }
  revert acc. induction messages as [|m messages IH]; intros acc.
  - cbn. now rewrite string_app_nil_r.
  - cbn [fold_left filter]. rewrite IH. fold (is_system m).
    destruct (is_system m) eqn:S; cbn [negb map rev].
    + rewrite C. fold (front_text m). now rewrite !string_app_assoc.
    + rewrite D. destruct (String.eqb (role m) "user") eqn:U.
      * replace (back_text m)
          with ("User: " ++ content m ++ Str.LF ++ "Assistant: ")
          by (unfold back_text; now rewrite U).
        now rewrite !string_app_assoc.
      * destruct (String.eqb (role m) "assistant") eqn:A.
        -- replace (back_text m) with (content m ++ Str.LF)
             by (unfold back_text; now rewrite U, A).
           now rewrite !string_app_assoc.
        -- replace (back_text m) with ""
             by (unfold back_text; now rewrite U, A).
           reflexivity.
Qed.

(** X21. The chat prompt of the first bridge puts every system message
    in front of all that was accumulated before it: the prompt is the
    system messages in reverse order of arrival, then the user and
    assistant turns in order of arrival; messages with any other role
    add nothing. *)
Theorem system_messages_go_first_reversed (messages : list message) :
  session_chat_prompt messages
  = String.concat "" (rev (map front_text (filter is_system messages)))
    ++ String.concat ""
         (map back_text (filter (fun m => negb (is_system m)) messages)).
Proof.
  unfold session_chat_prompt. now rewrite session_chat_prompt_from.
Qed.





(** ** Which file an alias belongs to *)

Lemma assigns_get val st keys (d : pydict string) k :
  assigns val st keys ->
  dict_get (st d) k
  = if existsb (String.eqb k) keys then Some val else dict_get d k.
Proof.
  intros A. revert d. induction A; intros d.
  - unfold assign. cbn [existsb]. rewrite orb_false_r.
    destruct (String.eqb_spec k k0) as [->|Hne].
    + apply dict_get_set_same.
    + now apply dict_get_set_other.
  - unfold seq. rewrite IHA2, IHA1, existsb_app.
    destruct (existsb (String.eqb k) kb); [now rewrite orb_true_r|].
    now rewrite orb_false_r.
  - unfold when. destruct c; [apply IHA | reflexivity].
  - unfold ifelse. destruct c; [apply IHA1 | apply IHA2].
  - reflexivity.
Qed.

Lemma scan_file_assigns v model_file :
  assigns (MODELS_DIR ++ "/" ++ model_file) (scan_file v model_file)
          (assigned_keys v model_file).
Proof.
  assert (H : exists keys,
             assigns (MODELS_DIR ++ "/" ++ model_file)
                     (scan_file v model_file) keys
             /\ keys = assigned_keys v model_file).
  { cbv beta zeta delta [scan_file assigned_keys].
    destruct v; eexists;
      (split;
       [ repeat match goal with
                | |- assigns _ (seq _ _) _ => eapply assigns_seq
                | |- assigns _ (when _ _) _ => eapply assigns_when
                | |- assigns _ (ifelse _ _ _) _ => eapply assigns_ifelse
                | |- assigns _ pass _ => eapply assigns_pass
                | |- assigns _ (assign _ _) _ => eapply assigns_assign
                end
       | reflexivity ]). }
  destruct H as (keys & H & <-). exact H.
Qed.

Lemma scan_loop_get v files (d : pydict string) k :
  dict_get (scan_loop v files d) k
  = match find (assigns_key v k) (rev files) with
    | Some g => Some (MODELS_DIR ++ "/" ++ g)
    | None => dict_get d k
    end.
Proof.
  unfold scan_loop. revert d.
  induction files as [|g files IH]; intros d; [reflexivity|].
  cbn [fold_left rev]. rewrite IH, (assigns_get _ _ _ _ _ (scan_file_assigns v g)).
  fold (assigns_key v k g).
  assert (F : forall l, find (assigns_key v k) (l ++ [g])
                        = match find (assigns_key v k) l with
                          | Some x => Some x
                          | None => if assigns_key v k g then Some g else None
                          end).
  { induction l as [|x l IHl]; cbn [app find]; [reflexivity|].
    destruct (assigns_key v k x); [reflexivity | exact IHl]. }
  rewrite F. destruct (find (assigns_key v k) (rev files)); [reflexivity|].
  now destruct (assigns_key v k g).
Qed.

(** X23. After a scan an alias belongs to the file visited last among
    those that assign it: looking a key up gives the path of the last
    visited file whose scan assigns that key, and nothing when no visited
    file assigns it. So of two files of one family, the family aliases
    go to the one that comes later in the listing. *)
Theorem alias_maps_to_last_assigner (v : script) (s : server) (k : string) :
  dict_get (MODEL_REGISTRY (scan_models v s)) k
  = option_map (fun g => MODELS_DIR ++ "/" ++ g)
      (find (assigns_key v k) (rev (scanned (disk s)))).
Proof.
  rewrite scan_models_registry, scan_loop_get.
  now destruct (find (assigns_key v k) (rev (scanned (disk s)))).
Qed.

End Bridge.

(** ** The one-shot runner under two environments *)

(** C7. When the launch raises, the runner yields exactly one chunk, the
    error text, starts no child and returns normally (its result has no
    raising form: the exception does not leave the function). When the
    child runs, the chunks delivered depend on its output alone: two
    children with the same output and different exit codes deliver the
    same chunks, so a non-zero exit takes nothing back. *)
Theorem launch_failure_is_one_error_chunk
  (LLAMA_BIN : string) (DEFAULT_THREADS OLLAMA_GPU_LAYERS : nat)
  (popen popen' : list string -> popen_result)
  (s : server) (model_path prompt : string) (o : options) (stream : bool) :
  let cmd := generation_cmd LLAMA_BIN DEFAULT_THREADS OLLAMA_GPU_LAYERS
               model_path prompt o in
  let run env :=
    run_llama_generation LLAMA_BIN DEFAULT_THREADS OLLAMA_GPU_LAYERS env
      s model_path prompt o stream in
  (forall e,
      popen cmd = PopenRaises e ->
      fst (run popen) = s /\ chunks (snd (run popen)) = ["Error: " ++ e])
  /\ (forall stdout returncode returncode' stderr stderr',
         popen cmd = Started stdout returncode stderr ->
         popen' cmd = Started stdout returncode' stderr' ->
         chunks (snd (run popen)) = chunks (snd (run popen'))
         /\ fst (run popen) = fst (run popen')).
Proof.
  intros cmd run. subst run. cbv beta. unfold run_llama_generation.
  fold cmd. split.
  - intros e ->. split; reflexivity.
  - intros stdout rc rc' err err' -> ->.
    destruct (stream_lines stream stdout [] []) as [[full yielded] [e|]];
      split; reflexivity.
Qed.

(** ** Instances *)

Lemma scan_then_resolve_filename_witness :
  In "a.gguf" (scanned termux_models (disk (fresh_server ["a.gguf"; "B.gguf"])))
  /\ get_model_path termux_models gpu_bridge
       (scan_models termux_models gpu_bridge (fresh_server ["a.gguf"; "B.gguf"]))
       "a.gguf"
     = (scan_models termux_models gpu_bridge (fresh_server ["a.gguf"; "B.gguf"]),
        Some (termux_models ++ "/" ++ "a.gguf")).
Proof.
  assert (Hin : In "a.gguf"
                  (scanned termux_models
                     (disk (fresh_server ["a.gguf"; "B.gguf"]))))
    by (vm_compute; auto).
  split; [exact Hin|].
  apply (scan_then_resolve_filename termux_models gpu_bridge
           (fresh_server ["a.gguf"; "B.gguf"]) "a.gguf" Hin).
  intros g Hg Hne. vm_compute in Hg.
  destruct Hg as [<-|[<-|[]]]; [congruence|].
  split; vm_compute; discriminate.
Defined.

(** C4 as stated fails on this directory: the stem of the second file is
    the name of the first. *)
Lemma stem_collision_counterexample :
  In "a.gguf"
     (scanned termux_models (disk (fresh_server ["a.gguf"; "a.gguf.gguf"])))
  /\ snd (get_model_path termux_models gpu_bridge
            (scan_models termux_models gpu_bridge
               (fresh_server ["a.gguf"; "a.gguf.gguf"]))
            "a.gguf")
     = Some (termux_models ++ "/" ++ "a.gguf.gguf")
  /\ snd (get_model_path termux_models gpu_bridge
            (scan_models termux_models gpu_bridge
               (fresh_server ["a.gguf"; "a.gguf.gguf"]))
            "a.gguf")
     <> Some (termux_models ++ "/" ++ "a.gguf").
Proof.
  split; [vm_compute; auto|]. split; [vm_compute; reflexivity|].
  vm_compute. discriminate.
Qed.

Lemma resolve_empty_name_witness :
  MODEL_REGISTRY (refreshed termux_models gpu_bridge_v2
                    (fresh_server ["TinyLlama-1.1B.Q4.gguf"])) <> []
  /\ snd (get_model_path termux_models gpu_bridge_v2
            (fresh_server ["TinyLlama-1.1B.Q4.gguf"]) "")
     <> None.
Proof.
  assert (Hne : MODEL_REGISTRY
                  (refreshed termux_models gpu_bridge_v2
                     (fresh_server ["TinyLlama-1.1B.Q4.gguf"])) <> [])
    by (vm_compute; discriminate).
  split; [exact Hne|].
  destruct (resolve_empty_name termux_models gpu_bridge_v2
              (fresh_server ["TinyLlama-1.1B.Q4.gguf"])
              (reach_initial termux_models gpu_bridge_v2) Hne)
    as (_ & Hfound & _).
  exact Hfound.
Defined.

Lemma pull_model_success_witness :
  reachable_registry termux_models gpu_bridge (MODEL_REGISTRY (fresh_server []))
  /\ embedding_name "nomic-embed-text:latest" = true
  /\ pull_succeeded
       (snd (pull_model termux_models (fun n => n) gpu_bridge
               (fresh_server []) "nomic-embed-text:latest")).
Proof.
  split; [simpl; apply reach_initial|]. split; [vm_compute; reflexivity|].
  destruct (pull_model_success termux_models (fun n => n) gpu_bridge
              (fresh_server []) "nomic-embed-text:latest"
              (reach_initial termux_models gpu_bridge)) as [Hembed _].
  apply Hembed. vm_compute. reflexivity.
Defined.

Lemma unknown_model_starts_nothing_witness :
  snd (get_model_path termux_models gpu_bridge
         (fresh_server ["phi-2.gguf"]) "mistral") = None
  /\ exists s',
       get_or_create_session termux_models termux_llama 4 16 hello_world_child
         (fresh_server ["phi-2.gguf"]) "mistral"
       = Return (s', None)
       /\ ACTIVE_SESSIONS s' = []
       /\ popen_calls s' = [].
Proof.
  split; [vm_compute; reflexivity|].
  destruct (unknown_model_starts_nothing termux_models termux_llama 4 16
              hello_world_child (fresh_server ["phi-2.gguf"]) "mistral"
              {| chat_model := "mistral"; chat_messages := [];
                 chat_stream := true; chat_options := default_options |})
    as [Hsession _].
  apply Hsession. vm_compute. reflexivity.
Defined.

Lemma third_blank_line_ends_response_witness :
  Str.strip "Hello" <> ""
  /\ generate_chunks "Hello" true hi_there_ticks
     = Exhausted ["Hi" ++ Str.LF; "there" ++ Str.LF].
Proof.
  assert (Hp : Str.strip "Hello" <> "") by (vm_compute; discriminate).
  split; [exact Hp|].
  destruct (third_blank_line_ends_response "Hello" true Hp) as [_ Hscenario].
  apply Hscenario; vm_compute; discriminate.
Defined.

(** The scenario of C1: the response is not over after the second blank
    line, and "there" is part of it. *)
Lemma hi_there_counterexample :
  poll_loop "Hello" true (firstn 3 hi_there_ticks) start_collect
  = Polling {| response_lines := ["Hi"]; empty_line_count := 2;
               yielded := ["Hi" ++ Str.LF] |}
  /\ generate_chunks "Hello" true hi_there_ticks
     = Exhausted ["Hi" ++ Str.LF; "there" ++ Str.LF]
  /\ ~ (exists c rest,
          poll_loop "Hello" true hi_there_ticks start_collect = Finished c rest
          /\ ~ In "there" (response_lines c)).
Proof.
  split; [vm_compute; reflexivity|]. split; [vm_compute; reflexivity|].
  intros (c & rest & H & Hn). vm_compute in H. injection H as <- _.
  apply Hn. simpl. auto.
Qed.

Lemma one_shot_streams_lines_in_order_witness :
  Forall (fun l => l <> "") hello_world_lines
  /\ snd (run_llama_generation termux_llama 4 16 hello_world_child
            (fresh_server ["phi-2.gguf"])
            (termux_models ++ "/" ++ "phi-2.gguf") "Hi" default_options true)
     = {| chunks := ["Hello" ++ Str.LF; "world" ++ Str.LF];
          errors_logged := [] |}.
Proof.
  assert (Hl : Forall (fun l => l <> "") hello_world_lines)
    by (repeat constructor; discriminate).
  split; [exact Hl|].
  destruct (one_shot_streams_lines_in_order termux_llama 4 16 hello_world_child
              (fresh_server ["phi-2.gguf"])
              (termux_models ++ "/" ++ "phi-2.gguf") "Hi" default_options
              hello_world_lines 0%Z "" eq_refl Hl) as [_ Hexample].
  apply Hexample; reflexivity.
Defined.

Lemma launch_failure_is_one_error_chunk_witness :
  chunks (snd (run_llama_generation termux_llama 4 16 missing_binary
                 (fresh_server []) "m.gguf" "Hi" default_options true))
  = ["Error: [Errno 2] No such file or directory"]
  /\ chunks (snd (run_llama_generation termux_llama 4 16
                    hello_world_failing_child
                    (fresh_server []) "m.gguf" "Hi" default_options true))
     = chunks (snd (run_llama_generation termux_llama 4 16
                      hello_world_child
                      (fresh_server []) "m.gguf" "Hi" default_options true)).
Proof.
  split.
  - destruct (launch_failure_is_one_error_chunk termux_llama 4 16
                missing_binary missing_binary (fresh_server []) "m.gguf" "Hi"
                default_options true) as [Hlaunch _].
    apply (Hlaunch "[Errno 2] No such file or directory"). reflexivity.
  - destruct (launch_failure_is_one_error_chunk termux_llama 4 16
                hello_world_failing_child hello_world_child
                (fresh_server []) "m.gguf" "Hi" default_options true)
      as [_ Hexit].
    apply (Hexit (map Readline hello_world_lines) 1%Z 0%Z
                 "ggml: out of memory" ""); reflexivity.
Defined.

(** ** Instances of the further properties *)

Lemma idle_gap_ends_response_witness :
  kept_lines "Hello" [at_ms (Line "Hi") 100] <> []
  /\ exists c unread,
       poll_loop "Hello" true
         ([at_ms (Line "Hi") 100] ++ at_ms QueueEmpty 2100 :: silence 3 2200)
         start_collect
       = Finished c (unread ++ silence 3 2200).
Proof.
  assert (K : kept_lines "Hello" [at_ms (Line "Hi") 100] <> [])
    by (vm_compute; discriminate).
  split; [exact K|].
  apply (idle_gap_ends_response "Hello" true [at_ms (Line "Hi") 100]
           (silence 3 2200) (at_ms QueueEmpty 2100) K); reflexivity.
Defined.

Lemma budget_ends_response_on_a_line_witness :
  exists c unread,
    poll_loop "Hello" true
      ([at_ms (Line "Hi") 100] ++ at_ms (Line "late") 30100 :: silence 3 30200)
      start_collect
    = Finished c (unread ++ silence 3 30200).
Proof.
  apply (budget_ends_response_on_a_line "Hello" true [at_ms (Line "Hi") 100]
           (silence 3 30200) (at_ms (Line "late") 30100) "late" start_collect).
  - reflexivity.
  - vm_compute. discriminate.
  - reflexivity.
Defined.

Lemma echo_and_silence_never_end_witness :
  generate_chunks "Hello" true
    [at_ms (Line "Hello") 100; at_ms QueueEmpty 40000; at_ms (Line " Hello") 50000]
  = Blocked [].
Proof.
  apply (echo_and_silence_never_end "Hello" true
           [at_ms (Line "Hello") 100; at_ms QueueEmpty 40000;
            at_ms (Line " Hello") 50000]).
  repeat constructor.
Defined.

Lemma session_is_reused_witness :
  exists s1 session,
    get_or_create_session termux_models termux_llama 4 16 hello_world_child
      (fresh_server ["phi-2.gguf"]) "phi"
    = Return (s1, Some session)
    /\ get_or_create_session termux_models termux_llama 4 16 hello_world_child
         s1 "phi"
       = Return (s1, Some session).
Proof.
  destruct (get_or_create_session termux_models termux_llama 4 16
              hello_world_child (fresh_server ["phi-2.gguf"]) "phi")
    as [[s1 [session|]]|e] eqn:E;
    [|vm_compute in E; discriminate|vm_compute in E; discriminate].
  exists s1, session. split; [reflexivity|].
  apply (session_is_reused termux_models termux_llama 4 16 hello_world_child
           (fresh_server ["phi-2.gguf"]) s1 "phi" session E).
Defined.

Lemma two_aliases_two_children_witness :
  exists s1 s2,
    get_or_create_session termux_models termux_llama 4 16 hello_world_child
      (fresh_server ["phi-2.gguf"]) "phi"
    = Return (s1, Some (started_session 16
                          (termux_models ++ "/" ++ "phi-2.gguf") 0))
    /\ get_or_create_session termux_models termux_llama 4 16 hello_world_child
         s1 "phi3"
       = Return (s2, Some (started_session 16
                             (termux_models ++ "/" ++ "phi-2.gguf") 1))
    /\ popen_calls s2
       = ([] ++ [ session_cmd termux_llama 4
                    (new_session 16 (termux_models ++ "/" ++ "phi-2.gguf"));
                  session_cmd termux_llama 4
                    (new_session 16 (termux_models ++ "/" ++ "phi-2.gguf")) ])%list.
Proof.
  apply (two_aliases_two_children termux_models termux_llama 4 16
           hello_world_child (fresh_server ["phi-2.gguf"]) "phi" "phi3"
           (termux_models ++ "/" ++ "phi-2.gguf")
           (map Readline hello_world_lines) 0%Z "").
  - discriminate.
  - reflexivity.
  - reflexivity.
  - vm_compute. reflexivity.
  - vm_compute. reflexivity.
  - discriminate.
  - reflexivity.
Defined.

Lemma sessions_stay_tracked_witness :
  sessions_tracked (fresh_server ["phi-2.gguf"])
  /\ exists s1 r,
       get_or_create_session termux_models termux_llama 4 16 hello_world_child
         (fresh_server ["phi-2.gguf"]) "phi"
       = Return (s1, r)
       /\ sessions_tracked s1.
Proof.
  assert (T : sessions_tracked (fresh_server ["phi-2.gguf"])) by reflexivity.
  split; [exact T|].
  destruct (get_or_create_session termux_models termux_llama 4 16
              hello_world_child (fresh_server ["phi-2.gguf"]) "phi")
    as [[s1 r]|e] eqn:E; [|vm_compute in E; discriminate].
  exists s1, r. split; [reflexivity|].
  apply (sessions_stay_tracked termux_models termux_llama 4 16
           hello_world_child (fresh_server ["phi-2.gguf"]) s1 "phi" r T E).
Defined.

Lemma cleanup_stops_every_child_witness :
  sessions_tracked one_session_server
  /\ snd (cleanup one_session_server) = [0]
  /\ ACTIVE_SESSIONS (fst (cleanup one_session_server)) = []
  /\ snd (cleanup (fst (cleanup one_session_server))) = [].
Proof.
  assert (T : sessions_tracked one_session_server) by reflexivity.
  split; [exact T|].
  apply (cleanup_stops_every_child one_session_server T).
Defined.

Lemma resolved_path_is_known_witness :
  (exists alias,
      In (alias, termux_models ++ "/" ++ "phi-2.gguf")
         (MODEL_REGISTRY (refreshed termux_models gpu_bridge
                            (fresh_server ["phi-2.gguf"]))))
  \/ path_exists (disk (refreshed termux_models gpu_bridge
                          (fresh_server ["phi-2.gguf"])))
       (termux_models ++ "/" ++ "phi-2.gguf") = true.
Proof.
  apply (resolved_path_is_known termux_models gpu_bridge
           (fresh_server ["phi-2.gguf"]) "PHI"
           (termux_models ++ "/" ++ "phi-2.gguf")).
  vm_compute. reflexivity.
Defined.

Lemma fragment_of_an_alias_resolves_witness :
  exists found,
    snd (get_model_path termux_models gpu_bridge_v2
           (fresh_server ["phi-2.gguf"]) "hi-2")
    = Some found.
Proof.
  apply (fragment_of_an_alias_resolves termux_models gpu_bridge_v2
           (fresh_server ["phi-2.gguf"]) "hi-2" "phi-2.gguf"
           (termux_models ++ "/" ++ "phi-2.gguf")).
  - vm_compute. left. reflexivity.
  - vm_compute. reflexivity.
Defined.

Lemma registry_is_not_refreshed_by_lookups_witness :
  snd (get_model_path termux_models gpu_bridge
         (set_disk (scan_models termux_models gpu_bridge
                      (fresh_server ["phi-2.gguf"]))
                   (disk_with []))
         "phi")
  = snd (get_model_path termux_models gpu_bridge
           (scan_models termux_models gpu_bridge (fresh_server ["phi-2.gguf"]))
           "phi").
Proof.
  destruct (registry_is_not_refreshed_by_lookups termux_models gpu_bridge
              (scan_models termux_models gpu_bridge (fresh_server ["phi-2.gguf"]))
              (disk_with []) "phi") as [_ Hsame].
  - vm_compute. reflexivity.
  - apply Hsame. vm_compute. discriminate.
Defined.

Lemma read_error_keeps_streamed_chunks_witness :
  chunks (snd (run_llama_generation termux_llama 4 16 unreadable_child
                 (fresh_server []) "m.gguf" "Hi" default_options true))
  = [line_chunk "Hello"; error_chunk "invalid start byte"]
  /\ chunks (snd (run_llama_generation termux_llama 4 16 unreadable_child
                    (fresh_server []) "m.gguf" "Hi" default_options false))
     = [error_chunk "invalid start byte"].
Proof.
  destruct (read_error_keeps_streamed_chunks termux_llama 4 16 unreadable_child
              (fresh_server []) "m.gguf" "Hi" default_options
              ["Hello" ++ Str.LF] "invalid start byte" [] 0%Z "")
    as (Hstream & Hwhole & _).
  - reflexivity.
  - repeat constructor. discriminate.
  - split; [exact Hstream | exact Hwhole].
Defined.

Lemma one_shot_modes_agree_witness :
  chunks (snd (run_llama_generation termux_llama 4 16 hello_world_failing_child
                 (fresh_server []) "m.gguf" "Hi" default_options false))
  = [Str.join Str.LF ["Hello"; "world"]].
Proof.
  destruct (one_shot_modes_agree termux_llama 4 16 hello_world_failing_child
              (fresh_server []) "m.gguf" "Hi" default_options
              hello_world_lines 1%Z "ggml: out of memory")
    as (_ & Hwhole & _).
  - reflexivity.
  - repeat constructor; discriminate.
  - exact Hwhole.
Defined.

Lemma show_model_names_the_file_witness :
  In ("modelfile", "FROM " ++ "a.gguf")
     (body (snd (show_model termux_models 4 16 gpu_bridge
                   (scan_models termux_models gpu_bridge
                      (fresh_server ["a.gguf"; "B.gguf"]))
                   "a.gguf"))).
Proof.
  apply (show_model_names_the_file termux_models 4 16 gpu_bridge
           (fresh_server ["a.gguf"; "B.gguf"]) "a.gguf").
  - vm_compute. auto.
  - reflexivity.
  - intros g Hg Hne. vm_compute in Hg.
    destruct Hg as [<-|[<-|[]]]; [congruence|].
    split; vm_compute; discriminate.
Defined.

